(** * Turn planner, responder and message bridge of the Teams/LangGraph bot

    A shallow embedding of [message.py], [state.py], [langgraph_agent.py]
    and [langgraph_planner.py], together with the properties the
    specification states about them.

    Conventions.
    - Python values that the code handles dynamically keep their dynamic
      shape: the role of a message is a string, a message content is a
      value that may be [None], a string or a list of content blocks.
    - Stateful code runs in a small state-and-exception monad [M] over a
      [Store] holding the planner's responder, the conversation state of
      the turn and a chronological log of the calls made to the external
      collaborators.  A raised exception keeps the mutations made so far,
      as in Python.
    - The external collaborators (prompt manager, prompt renderer, model
      client factory, model) are the fields of a [World]; each turn gets
      its own. *)

From Stdlib Require Import String List Bool Arith Lia.
From stdpp Require Import base option list strings gmap fin_maps.
Import ListNotations.
Local Open Scope string_scope.
Local Open Scope list_scope.

(** ** Message bridge ([message.py]) *)

Module Bridge.

(** A message content as Python holds it: [None], a [str], or a list of
    content blocks (the non-string case of [isinstance(content, str)]). *)
Inductive Content : Type :=
  | CNone
  | CStr (s : string)
  | CBlocks (parts : list string).

(** [isinstance(c, str)] *)
Definition is_str (c : Content) : bool :=
  match c with CStr _ => true | _ => false end.

(** The [ToolCall] typed dictionary of the external chat library, which
    is not part of the sources: a name, the serialized arguments, an
    optional id, and the optional key [type], which the library sets to
    "tool_call" on every tool call of an assistant message it builds. *)
Record ToolCall : Type := mkToolCall {
  tc_name : string;
  tc_args : string;
  tc_id : option string;
  tc_type : option string
}.

(** [class Message(TeamsAIMessage[str])]: inherited [role] and [content],
    plus [tool_calls] and [tool_call_id], both defaulting to [None]. *)
Record Message : Type := mkMessage {
  role : string;
  content : Content;
  tool_calls : option (list ToolCall);
  tool_call_id : option string
}.

(** [Message(role=r, content=c)] with the two optional fields left at
    their defaults. *)
Definition Message_ (r : string) (c : Content) : Message :=
  mkMessage r c None None.

(** The external chat-message taxonomy ([BaseMessage] and its variants),
    a library type that is not part of the sources, reduced to what the
    bridge reads and writes: the variant, the content, the [tool_calls]
    of the assistant variant and the [tool_call_id] of the tool variant;
    any other variant is outside the four recognized ones.  The other
    attributes of an external message (id, name, metadata), which
    [from_langchain] does not read, are not represented, so no statement
    below is one of equality of whole external messages received from
    the library.  These are the values as data; the library builds them
    through the validating constructors [new_SystemMessage],
    [new_HumanMessage], [new_AIMessage] and [new_ToolMessage] below. *)
Inductive BaseMessage : Type :=
  | SystemMessage (c : Content)
  | HumanMessage (c : Content)
  | AIMessage (c : Content) (calls : option (list ToolCall))
  | ToolMessage (c : Content) (call_id : option string)
  | OtherMessage (cls : string) (c : Content).

Definition ext_content (b : BaseMessage) : Content :=
  match b with
  | SystemMessage c | HumanMessage c | AIMessage c _ | ToolMessage c _
  | OtherMessage _ c => c
  end.

(** [isinstance(b, HumanMessage)] and [isinstance(b, SystemMessage)] *)
Definition is_HumanMessage (b : BaseMessage) : bool :=
  match b with HumanMessage _ => true | _ => false end.

Definition is_SystemMessage (b : BaseMessage) : bool :=
  match b with SystemMessage _ => true | _ => false end.

(** Python exceptions, all instances of [Exception].  [RuntimeError] is
    the one the bridge raises; [ValidationError] is the one the
    constructors of the external messages raise, with the class they were
    building; [AttributeError] and [IndexError] are what the interpreter
    raises on [None.chat(...)] and on [[][-1]]; [Failure] is any exception
    raised by an external collaborator. *)
Inductive Exception : Type :=
  | RuntimeError (msg : string)
  | ValidationError (cls : string)
  | AttributeError (msg : string)
  | IndexError (msg : string)
  | Failure (what : string).

(** The outcome of a call: a value, or a raised exception. *)
Definition result (A : Type) : Type := (A + Exception)%type.
Definition Ok {A} (a : A) : result A := inl a.
Definition Raise {A} (e : Exception) : result A := inr e.

(** The four recognized roles. *)
Definition recognized_role (r : string) : Prop :=
  r = "system" \/ r = "user" \/ r = "assistant" \/ r = "tool".

(** The constructors of the external messages, with the validation the
    chat library performs when one is called (behaviour of the library,
    not of the sources): a content that is [None] is rejected by every
    variant; the assistant variant rejects [tool_calls=None] and marks
    each tool call of the list it is given with the type "tool_call"; the
    tool variant rejects [tool_call_id=None].  A rejection raises
    [ValidationError]. *)
Definition content_accepted (c : Content) : bool :=
  match c with CNone => false | _ => true end.

Definition with_type (tc : ToolCall) : ToolCall :=
  mkToolCall (tc_name tc) (tc_args tc) (tc_id tc) (Some "tool_call").

Definition new_SystemMessage (c : Content) : result BaseMessage :=
  if content_accepted c then Ok (SystemMessage c)
  else Raise (ValidationError "SystemMessage").

Definition new_HumanMessage (c : Content) : result BaseMessage :=
  if content_accepted c then Ok (HumanMessage c)
  else Raise (ValidationError "HumanMessage").

Definition new_AIMessage (c : Content) (calls : option (list ToolCall))
  : result BaseMessage :=
  match content_accepted c, calls with
  | true, Some l => Ok (AIMessage c (Some (map with_type l)))
  | _, _ => Raise (ValidationError "AIMessage")
  end.

Definition new_ToolMessage (c : Content) (call_id : option string)
  : result BaseMessage :=
  match content_accepted c, call_id with
  | true, Some i => Ok (ToolMessage c (Some i))
  | _, _ => Raise (ValidationError "ToolMessage")
  end.

(** [Message.to_langchain] *)
Definition to_langchain (self : Message) : result BaseMessage :=
  let content :=
    match content self with CNone => CStr "" | c => c end in
  if (role self =? "system")%string then new_SystemMessage content
  else if (role self =? "user")%string then new_HumanMessage content
  else if (role self =? "assistant")%string then
    new_AIMessage content (tool_calls self)
  else if (role self =? "tool")%string then
    new_ToolMessage content (tool_call_id self)
  else Raise (RuntimeError ("invalid message role " ++ role self)).

(** [Message.from_langchain] *)
Definition from_langchain (message : BaseMessage) : result Message :=
  let content :=
    if is_str (ext_content message) then ext_content message else CStr "" in
  match message with
  | SystemMessage _ => Ok (Message_ "system" content)
  | HumanMessage _ => Ok (Message_ "user" content)
  | AIMessage _ calls => Ok (mkMessage "assistant" content calls None)
  | ToolMessage _ call_id => Ok (mkMessage "tool" content None call_id)
  | OtherMessage cls _ => Raise (RuntimeError ("invalid message type " ++ cls))
  end.

(** [from_langchain(to_langchain(m))], propagating an exception of the
    first conversion. *)
Definition round_trip (m : Message) : result Message :=
  match to_langchain m with
  | inl ext => from_langchain ext
  | inr e => Raise e
  end.

(** The optional fields a role gives a meaning to: [tool_calls] only on an
    assistant message, [tool_call_id] only on a tool message. *)
Definition role_fields_only (m : Message) : Prop :=
  (role m <> "assistant" -> tool_calls m = None) /\
  (role m <> "tool" -> tool_call_id m = None).

(** The optional field its role asks for is there, in the form the
    external constructors hand back: an assistant message has a list of
    tool calls, each marked with the type "tool_call"; a tool message has
    a [tool_call_id]. *)
Definition role_fields_set (m : Message) : Prop :=
  (role m = "assistant" ->
   exists l, tool_calls m = Some l /\
             Forall (fun tc => tc_type tc = Some "tool_call") l) /\
  (role m = "tool" -> exists i, tool_call_id m = Some i).

End Bridge.

(** ** Conversation state ([state.py]) *)

Module StateStore.
Import Bridge.

(** A value stored under a field name. *)
Inductive StoreItem : Type :=
  | VBool (b : bool)
  | VMessages (l : list Message).

(** The class-level declarations of [AppConversationState]:
    [lights_on: bool = False] and [history: List[Message] = []]. *)
Definition AppConversationState_defaults : gmap string StoreItem :=
  {[ "lights_on" := VBool false; "history" := VMessages [] ]}.

(** Modelled from the spec: the constructor of the framework's state base
    class is not part of the sources.  Called with the stored fields as
    keyword arguments, it materializes a partition from a mapping of
    field name to value; a field that the mapping lacks takes the default
    declared on the class. *)
Definition AppConversationState_new (kwargs : gmap string StoreItem)
  : gmap string StoreItem :=
  kwargs ∪ AppConversationState_defaults.

(** The storage backend: storage key to stored mapping. *)
Record Storage : Type := mkStorage {
  items : gmap string (gmap string StoreItem)
}.

(** Modelled from the spec: a scoped read of the storage collaborator,
    returning the mapping stored under the key, or the empty mapping if
    absent (first turn of a conversation, or no storage at all). *)
Definition read (storage : option Storage) (key : string)
  : gmap string StoreItem :=
  match storage with
  | Some st => default ∅ (items st !! key)
  | None => ∅
  end.

(** Modelled from the spec: [ConversationState.load] of the framework,
    reached through [super().load] with [cls] still bound to
    [AppConversationState]. *)
Definition ConversationState_load (key : string) (storage : option Storage)
  : gmap string StoreItem :=
  AppConversationState_new (read storage key).

(** [AppConversationState.load] *)
Definition AppConversationState_load (key : string)
    (storage : option Storage) : gmap string StoreItem :=
  let state := ConversationState_load key storage in
  AppConversationState_new state.

(** The typed reading of a conversation partition, as the annotations
    [lights_on: bool] and [history: List[Message]] give it. *)
Record AppConversationState : Type := mkConversation {
  lights_on : bool;
  history : list Message
}.

(** A partition read at its annotated types; undefined when a field is
    missing or holds a value of another type. *)
Definition typed (fields : gmap string StoreItem)
  : option AppConversationState :=
  match fields !! "lights_on", fields !! "history" with
  | Some (VBool b), Some (VMessages l) => Some (mkConversation b l)
  | _, _ => None
  end.

(** The three scoped partitions of a turn. *)
Record AppTurnState : Type := mkTurnState {
  conversation : gmap string StoreItem;
  user : gmap string StoreItem;
  temp : gmap string StoreItem
}.

(** [AppTurnState.load].  The user partition is read under the user key
    and declares no field of its own; the turn-local partition starts
    empty on every turn. *)
Definition AppTurnState_load (conversation_key user_key : string)
    (storage : option Storage) : AppTurnState :=
  {| conversation := AppConversationState_load conversation_key storage;
     user := read storage user_key;
     temp := ∅ |}.

End StateStore.

(** ** Effects: store, log and exceptions *)

Module Effects.
Import Bridge StateStore.

(** [SimpleLangGraphAgent]: the stored system prompt and the handle of the
    model client built by its constructor. *)
Record SimpleLangGraphAgent : Type := mkAgent {
  system_prompt : string;
  llm : nat
}.

(** What the planner reads of a loaded prompt template. *)
Record PromptTemplate : Type := mkTemplate {
  template_name : string;
  max_input_tokens : nat
}.

(** An entry of the history list handed to [chat]: a [Message], or any
    other object, of which [chat] sees, through [hasattr], the value of
    the [role] attribute and of the [content] attribute when it has
    them. *)
Inductive Entry : Type :=
  | OfMessage (m : Message)
  | OtherObject (role_attr : option string) (content_attr : option Content).

Definition entry_of (m : Message) : Entry := OfMessage m.

Definition attr_role (msg : Entry) : option string :=
  match msg with
  | OfMessage m => Some (role m)
  | OtherObject r _ => r
  end.

Definition attr_content (msg : Entry) : option Content :=
  match msg with
  | OfMessage m => Some (content m)
  | OtherObject _ c => c
  end.

Inductive LogLevel : Type := DEBUG | ERROR.

Inductive LogArg : Type :=
  | AStr (s : string)
  | AContent (c : Content)
  | ALen (n : nat)
  | AExc (e : Exception).

(** One entry of the chronological log: a call to an external
    collaborator, an assignment of the planner's responder, the entry
    into the responder's [chat] with the arguments it received, or a
    logger line. *)
Inductive Event : Type :=
  | PromptLoaded
  | PromptRendered (template : PromptTemplate)
  | ClientRequested
  | AgentAssigned (agent : SimpleLangGraphAgent)
  | ChatCalled (message : string)
      (conversation_history : option (list Entry))
  | ModelInvoked (client : nat) (messages : list BaseMessage)
  | Logged (level : LogLevel) (line : string) (args : list LogArg).

(** The external collaborators as one turn meets them. *)
Record World : Type := mkWorld {
  (** [await self._prompt_factory(context, state, self)] *)
  prompt_factory : result PromptTemplate;
  (** [(await template.prompt.render_as_text(...)).output] *)
  render_as_text : PromptTemplate -> result string;
  (** [Config()], the environment set-up and [AzureChatOpenAI(...)] *)
  new_client : result nat;
  (** [await self.llm.ainvoke(messages)] *)
  ainvoke : nat -> list BaseMessage -> result BaseMessage
}.

(** [self.agent] of the planner, [state.conversation] of the turn, and the
    log. *)
Record Store : Type := mkStore {
  st_agent : option SimpleLangGraphAgent;
  st_conversation : AppConversationState;
  st_log : list Event
}.

Definition M (A : Type) : Type := Store -> result A * Store.

Definition ret {A} (a : A) : M A := fun s => (Ok a, s).

Definition bind {A B} (m : M A) (k : A -> M B) : M B :=
  fun s =>
    match m s with
    | (inl a, s') => k a s'
    | (inr e, s') => (Raise e, s')
    end.

Definition raise {A} (e : Exception) : M A := fun s => (Raise e, s).

(** [try: body  except Exception as e: handler(e)] *)
Definition try_except {A} (body : M A) (handler : Exception -> M A) : M A :=
  fun s =>
    match body s with
    | (inl a, s') => (Ok a, s')
    | (inr e, s') => handler e s'
    end.

Definition lift {A} (r : result A) : M A := fun s => (r, s).

Definition gets {A} (f : Store -> A) : M A := fun s => (Ok (f s), s).

Definition emit (e : Event) : M unit :=
  fun s => (Ok tt, mkStore (st_agent s) (st_conversation s) (st_log s ++ [e])).

Definition set_agent (a : SimpleLangGraphAgent) : M unit :=
  fun s => (Ok tt, mkStore (Some a) (st_conversation s)
                     (st_log s ++ [AgentAssigned a])).

(** [state.conversation.history.append(m)] *)
Definition history_append (m : Message) : M unit :=
  fun s => (Ok tt,
            mkStore (st_agent s)
              (mkConversation (lights_on (st_conversation s))
                 (history (st_conversation s) ++ [m]))
              (st_log s)).

Definition logger (level : LogLevel) (line : string) (args : list LogArg)
  : M unit := emit (Logged level line args).

End Effects.

Declare Scope eff_scope.
Delimit Scope eff_scope with eff.
Notation "x <~ m ;; k" := (Effects.bind m (fun x => k))
  (at level 62, m at next level, right associativity) : eff_scope.
Notation "m ;;; k" := (Effects.bind m (fun _ => k))
  (at level 62, right associativity) : eff_scope.

(** ** Responder ([langgraph_agent.py]) *)

Module Agent.
Import Bridge StateStore Effects.
Local Open Scope eff_scope.

Definition default_system_prompt : string :=
  "You are a helpful AI assistant powered by Azure OpenAI and LangGraph.".

(** [SimpleLangGraphAgent.__init__]: the configuration and the model
    client come from the world; [system_prompt or default] replaces an
    empty prompt by the default one. *)
Definition SimpleLangGraphAgent_init (w : World) (prompt : string)
  : M SimpleLangGraphAgent :=
  emit ClientRequested ;;;
  client <~ lift (new_client w) ;;
  ret (mkAgent (if (prompt =? "")%string then default_system_prompt
                else prompt) client).

(** The body of the [for msg in conversation_history] loop when the
    constructor it calls accepts the content: what one entry appends to
    [messages]. *)
Definition forwarded (msg : Entry) : list BaseMessage :=
  match attr_role msg, attr_content msg with
  | Some r, Some c =>
      if (r =? "user")%string then [HumanMessage c]
      else if (r =? "assistant")%string then [AIMessage c (Some [])]
      else []
  | _, _ => []
  end.

(** Lines 93-105 of [chat] when every constructor accepts its content:
    the message list handed to the graph. *)
Definition chat_messages (message : string)
    (conversation_history : option (list Entry)) : list BaseMessage :=
  let messages :=
    match conversation_history with
    | Some ((_ :: _) as h) =>
        fold_left (fun messages msg => messages ++ forwarded msg) h []
    | _ => []
    end in
  messages ++ [HumanMessage (CStr message)].

(** Lines 67-73 of [_chat_node]: the message list sent to the model. *)
Definition node_messages (self : SimpleLangGraphAgent)
    (messages : list BaseMessage) : list BaseMessage :=
  match messages with
  | [m] =>
      if is_HumanMessage m
      then [SystemMessage (CStr (system_prompt self))] ++ messages
      else messages
  | _ => messages
  end.

(** [_chat_node]: returns the response the node contributes. *)
Definition _chat_node (self : SimpleLangGraphAgent) (w : World)
    (messages : list BaseMessage) : M BaseMessage :=
  let messages := node_messages self messages in
  emit (ModelInvoked (llm self) messages) ;;;
  lift (ainvoke w (llm self) messages).

(** [self.graph.ainvoke(initial_state)] for the one-node graph built by
    [_build_graph]: the node's response is added to the message list. *)
Definition graph_ainvoke (self : SimpleLangGraphAgent) (w : World)
    (messages : list BaseMessage) : M (list BaseMessage) :=
  response <~ _chat_node self w messages ;;
  ret (messages ++ [response]).

(** The body of the [for msg in conversation_history] loop, with the
    validation of the constructor it calls: the messages one entry
    appends, or the exception of the constructor. *)
Definition forward (msg : Entry) : result (list BaseMessage) :=
  match attr_role msg, attr_content msg with
  | Some r, Some c =>
      if (r =? "user")%string then
        match new_HumanMessage c with
        | inl m => Ok [m]
        | inr e => Raise e
        end
      else if (r =? "assistant")%string then
        match new_AIMessage c (Some []) with
        | inl m => Ok [m]
        | inr e => Raise e
        end
      else Ok []
  | _, _ => Ok []
  end.

(** The loop: the first entry whose message cannot be built ends it. *)
Fixpoint convert_history (h : list Entry) (messages : list BaseMessage)
  : result (list BaseMessage) :=
  match h with
  | [] => Ok messages
  | msg :: rest =>
      match forward msg with
      | inl ms => convert_history rest (messages ++ ms)
      | inr e => Raise e
      end
  end.

(** Lines 93-105 of [chat]: the message list handed to the graph, or the
    exception raised while building it. *)
Definition build_messages (message : string)
    (conversation_history : option (list Entry))
  : result (list BaseMessage) :=
  let converted :=
    match conversation_history with
    | Some ((_ :: _) as h) => convert_history h []
    | _ => Ok []
    end in
  match converted with
  | inl messages =>
      match new_HumanMessage (CStr message) with
      | inl m => Ok (messages ++ [m])
      | inr e => Raise e
      end
  | inr e => Raise e
  end.

(** [SimpleLangGraphAgent.chat].  The first event records the arguments
    the function was entered with. *)
Definition chat (self : SimpleLangGraphAgent) (w : World) (message : string)
    (conversation_history : option (list Entry)) : M Content :=
  emit (ChatCalled message conversation_history) ;;;
  messages <~ lift (build_messages message conversation_history) ;;
  result_messages <~ graph_ainvoke self w messages ;;
  match last result_messages with
  | Some last_message => ret (ext_content last_message)
  | None => raise (IndexError "list index out of range")
  end.

(** The messages that [chat] sends to the model when it gets that far. *)
Definition sent_to_model (self : SimpleLangGraphAgent) (message : string)
    (conversation_history : option (list Entry)) : list BaseMessage :=
  node_messages self (chat_messages message conversation_history).

(** The conversions of the entries of a prior history that the loop of
    [chat] keeps, in order; an absent history keeps nothing. *)
Definition forwarded_history (conversation_history : option (list Entry))
  : list BaseMessage :=
  flat_map forwarded (default [] conversation_history).

(** [chat] returns [reply], respectively raises [e], whatever the store
    it runs in. *)
Definition chat_returns (self : SimpleLangGraphAgent) (w : World)
    (message : string) (conversation_history : option (list Entry))
    (reply : Content) : Prop :=
  forall s, fst (chat self w message conversation_history s) = Ok reply.

Definition chat_raises (self : SimpleLangGraphAgent) (w : World)
    (message : string) (conversation_history : option (list Entry))
    (e : Exception) : Prop :=
  forall s, fst (chat self w message conversation_history s) = Raise e.

End Agent.

(** ** Turn planner ([langgraph_planner.py]) *)

Module Planner.
Import Bridge StateStore Effects Agent.
Local Open Scope eff_scope.

(** What the planner reads of the turn context: [context.activity.text]. *)
Record TurnContext : Type := mkContext {
  activity_text : string
}.

Inductive PredictedCommand : Type :=
  | PredictedSayCommand (response : Message).

Record Plan : Type := mkPlan {
  commands : list PredictedCommand
}.

Definition apology : string :=
  "I apologize, but I encountered an error while processing your request. Please try again.".

(** [LangGraphPlanner._ensure_agent_initialized] *)
Definition _ensure_agent_initialized (w : World) (context : TurnContext)
  : M unit :=
  agent <~ gets st_agent ;;
  match agent with
  | None =>
      emit PromptLoaded ;;;
      template <~ lift (prompt_factory w) ;;
      emit (PromptRendered template) ;;;
      rendered <~ lift (render_as_text w template) ;;
      new_agent <~ SimpleLangGraphAgent_init w rendered ;;
      set_agent new_agent ;;;
      logger DEBUG "Initialized agent with system prompt: %s..."
        [AStr (substring 0 100 rendered)]
  | Some _ => ret tt
  end.

(** [LangGraphPlanner._generate_response] *)
Definition _generate_response (w : World) (context : TurnContext) : M Plan :=
  let user_message := activity_text context in
  h <~ gets (fun s => history (st_conversation s)) ;;
  let conversation_history :=
    if (0 <? length h)%nat then removelast h else [] in
  try_except
    (agent <~ gets st_agent ;;
     agent_response <~
       match agent with
       | Some a =>
           chat a w user_message (Some (map entry_of conversation_history))
       | None =>
           raise (AttributeError "'NoneType' object has no attribute 'chat'")
       end ;;
     logger DEBUG "agent response (with history) => %s"
       [AContent agent_response] ;;;
     logger DEBUG "conversation history length => %d"
       [ALen (length conversation_history)] ;;;
     let plan :=
       mkPlan ([] ++ [PredictedSayCommand
                        (Message_ "assistant" agent_response)]) in
     history_append (Message_ "assistant" agent_response) ;;;
     ret plan)
    (fun e =>
       logger ERROR "Error generating response: %s" [AExc e] ;;;
       let plan :=
         mkPlan ([] ++ [PredictedSayCommand
                          (Message_ "assistant" (CStr apology))]) in
       ret plan).

(** The value of [conversation_history] in [_generate_response], as a
    function of the history it reads. *)
Definition prior_of (h : list Message) : list Message :=
  if (0 <? length h)%nat then removelast h else [].

(** [LangGraphPlanner.begin_task] *)
Definition begin_task (w : World) (context : TurnContext) : M Plan :=
  _ensure_agent_initialized w context ;;;
  logger DEBUG "begin_task - input => %s" [AStr (activity_text context)] ;;;
  history_append (Message_ "user" (CStr (activity_text context))) ;;;
  _generate_response w context.

(** [LangGraphPlanner.continue_task] *)
Definition continue_task (w : World) (context : TurnContext) : M Plan :=
  _ensure_agent_initialized w context ;;;
  logger DEBUG "continue_task - input => %s" [AStr (activity_text context)] ;;;
  history_append (Message_ "user" (CStr (activity_text context))) ;;;
  _generate_response w context.

(** The two public entry points of the planner. *)
Inductive EntryPoint : Type := BeginTask | ContinueTask.

Definition plan_turn (entry : EntryPoint) : World -> TurnContext -> M Plan :=
  match entry with
  | BeginTask => begin_task
  | ContinueTask => continue_task
  end.

(** One call on a planner: the entry point, the collaborators as the turn
    meets them, the turn context and the conversation state loaded for the
    turn. *)
Record Call : Type := mkCall {
  call_entry : EntryPoint;
  call_world : World;
  call_context : TurnContext;
  call_conversation : AppConversationState
}.

(** The line each entry point hands to the logger. *)
Definition entry_log_line (entry : EntryPoint) : string :=
  match entry with
  | BeginTask => "begin_task - input => %s"
  | ContinueTask => "continue_task - input => %s"
  end.

(** A call on the planner whose responder and log are those of [s]. *)
Definition run_call (c : Call) (s : Store) : result Plan * Store :=
  plan_turn (call_entry c) (call_world c) (call_context c)
    (mkStore (st_agent s) (call_conversation c) (st_log s)).

(** A sequence of calls on the same planner. *)
Fixpoint run_calls (cs : list Call) (s : Store) : Store :=
  match cs with
  | [] => s
  | c :: cs' => run_calls cs' (snd (run_call c s))
  end.

(** Observations on the log. *)
Definition is_PromptLoaded (e : Event) : bool :=
  match e with PromptLoaded => true | _ => false end.

Definition is_PromptRendered (e : Event) : bool :=
  match e with PromptRendered _ => true | _ => false end.

Definition is_ClientRequested (e : Event) : bool :=
  match e with ClientRequested => true | _ => false end.

Definition is_AgentAssigned (e : Event) : bool :=
  match e with AgentAssigned _ => true | _ => false end.

Definition is_Logged (e : Event) : bool :=
  match e with Logged _ _ _ => true | _ => false end.

Definition count (p : Event -> bool) (log : list Event) : nat :=
  length (List.filter p log).

Definition prompt_loads : list Event -> nat := count is_PromptLoaded.
Definition prompt_renders : list Event -> nat := count is_PromptRendered.
Definition client_requests : list Event -> nat := count is_ClientRequested.
Definition agent_assignments : list Event -> nat := count is_AgentAssigned.

(** 1 if the responder went from uninitialized to initialized, else 0. *)
Definition became_ready (before after : option SimpleLangGraphAgent) : nat :=
  match before, after with
  | None, Some _ => 1
  | _, _ => 0
  end.

(** The number of calls of a run that find the responder uninitialized. *)
Fixpoint uninitialized_calls (cs : list Call) (s : Store) : nat :=
  match cs with
  | [] => 0
  | c :: cs' =>
      (match st_agent s with None => 1 | Some _ => 0 end)
      + uninitialized_calls cs' (snd (run_call c s))
  end.

(** The calls of the responder's [chat] recorded in a log, in order,
    each with the arguments [chat] received. *)
Definition chat_calls (log : list Event)
  : list (string * option (list Entry)) :=
  flat_map (fun e => match e with
                     | ChatCalled m h => [(m, h)]
                     | _ => []
                     end) log.

(** The message lists sent to the model recorded in a log, in order. *)
Definition model_calls (log : list Event) : list (list BaseMessage) :=
  flat_map (fun e => match e with
                     | ModelInvoked _ ms => [ms]
                     | _ => []
                     end) log.

(** The log without the logger's lines: the calls made. *)
Definition calls_made (log : list Event) : list Event :=
  List.filter (fun e => negb (is_Logged e)) log.

End Planner.

(** ** Scenarios *)

Module Scenario.
Import Bridge StateStore Effects Agent Planner.

Definition tools_template : PromptTemplate := mkTemplate "tools" 2800.

Definition oslo : BaseMessage := AIMessage (CStr "Oslo.") (Some []).

(** Every collaborator answers; the model replies "Oslo.". *)
Definition answering : World :=
  mkWorld (Ok tools_template) (fun _ => Ok "You are a helpful assistant.")
    (Ok 1) (fun _ _ => Ok oslo).

(** The model call fails. *)
Definition model_down : World :=
  mkWorld (Ok tools_template) (fun _ => Ok "You are a helpful assistant.")
    (Ok 1) (fun _ _ => Raise (Failure "model call timed out")).

(** Rendering the prompt fails. *)
Definition render_down : World :=
  mkWorld (Ok tools_template) (fun _ => Raise (Failure "prompt too long"))
    (Ok 1) (fun _ _ => Ok oslo).

Definition question : TurnContext :=
  mkContext "Hello! What is the capital of Norway?".

(** A new planner and a conversation with an empty history. *)
Definition fresh : Store := mkStore None (mkConversation false []) [].

Definition ready_agent : SimpleLangGraphAgent :=
  mkAgent "You are a helpful assistant." 1.

Definition first_call (w : World) : Call :=
  mkCall BeginTask w question (mkConversation false []).

Definition later_call (w : World) : Call :=
  mkCall ContinueTask w question
    (mkConversation false
       [Message_ "user" (CStr "Hello! What is the capital of Norway?");
        Message_ "assistant" (CStr "Oslo.")]).

End Scenario.

(** ** Configuration ([config.py]) and start-up ([bot_langgraph.py]) *)

Module Settings.
Import Bridge.

(** [os.getenv(key, fallback)] over the process environment; without a
    fallback argument the fallback is [None]. *)
Definition getenv (environ : gmap string string) (key : string)
    (fallback : option string) : option string :=
  match environ !! key with
  | Some v => Some v
  | None => fallback
  end.

(** [class Config]: class attributes read from the environment. *)
Record Config : Type := mkConfig {
  PORT : nat;
  APP_ID : option string;
  APP_PASSWORD : option string;
  AZURE_OPENAI_API_VERSION : option string;
  AZURE_OPENAI_API_KEY : option string;
  AZURE_OPENAI_ENDPOINT : option string;
  AZURE_OPENAI_CHAT_DEPLOYMENT_NAME : option string
}.

Definition Config_ (environ : gmap string string) : Config :=
  {| PORT := 3978;
     APP_ID := getenv environ "BOT_ID" None;
     APP_PASSWORD := getenv environ "BOT_PASSWORD" None;
     AZURE_OPENAI_API_VERSION :=
       getenv environ "AZURE_OPENAI_API_VERSION" (Some "");
     AZURE_OPENAI_API_KEY := getenv environ "AZURE_OPENAI_API_KEY" (Some "");
     AZURE_OPENAI_ENDPOINT := getenv environ "AZURE_OPENAI_ENDPOINT" (Some "");
     AZURE_OPENAI_CHAT_DEPLOYMENT_NAME :=
       getenv environ "AZURE_OPENAI_CHAT_DEPLOYMENT_NAME" (Some "") |}.

(** [bot_langgraph.py], lines 37-40: the check of the API key. *)
Definition check_api_key (config : Config) : result unit :=
  match AZURE_OPENAI_API_KEY config with
  | None =>
      Raise (RuntimeError
               "Missing environment variables - please check that AZURE_OPENAI_API_KEY is set.")
  | Some _ => Ok tt
  end.

(** [os.environ[key] = value]: only a string can be stored. *)
Definition setenv (environ : gmap string string) (key : string)
    (value : option string) : result (gmap string string) :=
  match value with
  | Some v => Ok (<[key := v]> environ)
  | None => Raise (Failure "TypeError: str expected, not NoneType")
  end.

(** The three assignments to [os.environ] made at start-up
    ([bot_langgraph.py], lines 43-45) and again by the constructor of the
    responder ([langgraph_agent.py], lines 32-34). *)
Definition export_azure (config : Config) (environ : gmap string string)
  : result (gmap string string) :=
  match setenv environ "AZURE_OPENAI_API_KEY" (AZURE_OPENAI_API_KEY config) with
  | inr e => Raise e
  | inl environ1 =>
      match setenv environ1 "AZURE_OPENAI_ENDPOINT"
              (AZURE_OPENAI_ENDPOINT config) with
      | inr e => Raise e
      | inl environ2 =>
          setenv environ2 "AZURE_OPENAI_API_VERSION"
            (AZURE_OPENAI_API_VERSION config)
      end
  end.

(** Start-up of [bot_langgraph.py] up to line 45: the configuration is
    read, the key checked, the variables exported. *)
Definition start_up (environ : gmap string string)
  : result (gmap string string) :=
  let config := Config_ environ in
  match check_api_key config with
  | inr e => Raise e
  | inl _ => export_azure config environ
  end.

End Settings.

(** ** Action handler ([bot_langgraph.py]) *)

Module Bot.
Import Bridge.

(** The action context as [on_say] probes it with [hasattr]: the value of
    [context.data] when present, of [data.response] when present, and of
    [response.content] when present. *)
Record SayResponse : Type := mkSayResponse {
  response_content : option Content
}.

Record ActionData : Type := mkActionData {
  data_response : option SayResponse
}.

Record ActionTurnContext : Type := mkActionContext {
  context_data : option ActionData
}.

(** [on_say]: the outcome, and the activities handed to
    [context.send_activity], whose own outcome is [send]'s. *)
Definition on_say (send : Content -> result unit)
    (context : ActionTurnContext) : result string * list Content :=
  match context_data context with
  | Some data =>
      match data_response data with
      | Some response =>
          match response_content response with
          | Some c =>
              match send c with
              | inl _ => (Ok "", [c])
              | inr e => (Raise e, [c])
              end
          | None => (Ok "", [])
          end
      | None => (Ok "", [])
      end
  | None => (Ok "", [])
  end.

End Bot.

(** ** Predicates used in the statements *)

Module Shapes.
Import Bridge Effects.

(** A message of a turn the planner recorded: a user or an assistant
    message. *)
Definition spoken (m : Message) : Prop :=
  role m = "user" \/ role m = "assistant".

(** The content [from_langchain] yields: strings unchanged, anything else
    the empty string. *)
Definition as_text (c : Content) : Content :=
  match c with
  | CStr s => CStr s
  | _ => CStr ""
  end.

(** An entry on which the loop of [chat] raises: a user or an assistant
    entry whose content is [None], which the constructor of the external
    message rejects. *)
Definition rejected (msg : Entry) : Prop :=
  attr_content msg = Some CNone /\
  (attr_role msg = Some "user" \/ attr_role msg = Some "assistant").

End Shapes.

(** ** Proof automation *)

(** Closes a goal that asks for the events a concrete run appended to the
    log and for counts over them. *)
Ltac close_call_effect :=
  eexists; split;
  [ cbn [snd Effects.st_log]; rewrite <- ?app_assoc; reflexivity
  | cbn; repeat split; lia ].

(** * Properties *)

(** ** Message bridge *)

Module BridgeProps.
Import Bridge.

Lemma recognized_role_cases (r : string) :
  recognized_role r ->
  ((r =? "system") || (r =? "user") || (r =? "assistant") || (r =? "tool"))%string
  = true.
Proof.
  intros [-> | [-> | [-> | ->]]]; reflexivity.
Qed.

Lemma unrecognized_role_cases (r : string) :
  ~ recognized_role r ->
  (r =? "system")%string = false /\ (r =? "user")%string = false /\
  (r =? "assistant")%string = false /\ (r =? "tool")%string = false.
Proof.
  intros Hno. unfold recognized_role in Hno.
  repeat split; apply String.eqb_neq; intros ->; tauto.
Qed.

(** How [to_langchain] ends, by the role and the optional fields of the
    message. *)
Lemma to_langchain_cases (m : Message) :
  let c := match content m with CNone => CStr "" | c => c end in
  (role m = "system" /\ to_langchain m = Ok (SystemMessage c)) \/
  (role m = "user" /\ to_langchain m = Ok (HumanMessage c)) \/
  (role m = "assistant" /\
   ((exists l, tool_calls m = Some l /\
               to_langchain m = Ok (AIMessage c (Some (map with_type l)))) \/
    (tool_calls m = None /\
     to_langchain m = Raise (ValidationError "AIMessage")))) \/
  (role m = "tool" /\
   ((exists i, tool_call_id m = Some i /\
               to_langchain m = Ok (ToolMessage c (Some i))) \/
    (tool_call_id m = None /\
     to_langchain m = Raise (ValidationError "ToolMessage")))) \/
  (~ recognized_role (role m) /\
   to_langchain m = Raise (RuntimeError ("invalid message role " ++ role m))).
Proof.
  intros c. unfold to_langchain. fold c.
  assert (content_accepted c = true) as Hc
    by (subst c; destruct (content m); reflexivity).
  unfold new_SystemMessage, new_HumanMessage, new_AIMessage, new_ToolMessage.
  rewrite Hc.
  destruct (String.eqb_spec (role m) "system") as [H | H1]; [auto |].
  destruct (String.eqb_spec (role m) "user") as [H | H2]; [auto |].
  destruct (String.eqb_spec (role m) "assistant") as [H | H3].
  { right. right. left. split; [exact H |].
    destruct (tool_calls m) as [l |]; eauto. }
  destruct (String.eqb_spec (role m) "tool") as [H | H4].
  { right. right. right. left. split; [exact H |].
    destruct (tool_call_id m) as [i |]; eauto. }
  right. right. right. right. split; [| reflexivity].
  unfold recognized_role. tauto.
Qed.

(** C6.  The code does not do what the claim says.  An assistant message
    built with the defaults of the class ([tool_calls] is [None]) has one
    of the four recognized roles, and [to_langchain] raises on it: it
    passes [tool_calls=None] to the constructor of the assistant variant,
    which rejects it.  The same happens to a tool message whose
    [tool_call_id] is [None].  The error is not the invalid-role error,
    which is raised for unrecognized roles only. *)
Theorem to_langchain_rejects_default_assistant_message :
  recognized_role (role (Message_ "assistant" (CStr "Hi!"))) /\
  to_langchain (Message_ "assistant" (CStr "Hi!"))
  = Raise (ValidationError "AIMessage") /\
  recognized_role (role (Message_ "tool" (CStr "42"))) /\
  to_langchain (Message_ "tool" (CStr "42"))
  = Raise (ValidationError "ToolMessage") /\
  to_langchain (Message_ "function" (CStr "42"))
  = Raise (RuntimeError "invalid message role function").
Proof.
  unfold recognized_role. simpl. repeat split; auto.
Qed.

(** C3, as stated, fails: a user message that carries a [tool_call_id]
    has a recognized role and a string content, and the round trip
    returns a different message, because the external user variant has no
    such field. *)
Lemma round_trip_drops_unmeaningful_field :
  let m := mkMessage "user" (CStr "hi") None (Some "call_1") in
  recognized_role (role m) /\ content m = CStr "hi" /\
  round_trip m = Ok (Message_ "user" (CStr "hi")) /\
  round_trip m <> Ok m.
Proof.
  simpl. repeat split.
  - unfold recognized_role. simpl. tauto.
  - discriminate.
Qed.

Lemma with_type_fixed (l : list ToolCall) :
  Forall (fun tc => tc_type tc = Some "tool_call") l ->
  map with_type l = l.
Proof.
  induction 1 as [| tc l Htc Hl IH]; simpl; [reflexivity |].
  rewrite IH. f_equal. destruct tc as [n a i t]. simpl in Htc.
  subst t. reflexivity.
Qed.

(** A message of the shape the external constructors hand back is a
    fixed point of the round trip. *)
Lemma round_trip_fixes_well_formed (m : Message) (s : string) :
  recognized_role (role m) ->
  content m = CStr s ->
  role_fields_only m ->
  role_fields_set m ->
  round_trip m = Ok m.
Proof.
  intros Hrole Hcontent [Hcalls Hcid] [Hcalled Hanswered]. unfold round_trip.
  destruct m as [r c calls cid]. simpl in *. subst c.
  destruct (to_langchain_cases (mkMessage r (CStr s) calls cid))
    as [[Hr ->] | [[Hr ->] | [[Hr Hcase] | [[Hr Hcase] | [Hr _]]]]];
    simpl in *; try tauto; subst r.
  - unfold Message_. rewrite Hcalls, Hcid by discriminate. reflexivity.
  - unfold Message_. rewrite Hcalls, Hcid by discriminate. reflexivity.
  - destruct (Hcalled eq_refl) as (l & -> & Htyped).
    destruct Hcase as [(l' & [= <-] & ->) | [Hnone _]];
      [| discriminate Hnone].
    simpl. rewrite (with_type_fixed l Htyped), Hcid by discriminate.
    reflexivity.
  - destruct (Hanswered eq_refl) as (i & ->).
    destruct Hcase as [(i' & [= <-] & ->) | [Hnone _]];
      [| discriminate Hnone].
    simpl. rewrite Hcalls by discriminate. reflexivity.
Qed.

(** C3, amended.  For every [Message] whose role is one of the four
    recognized values, whose content is a string, whose optional fields
    are set only where the role gives them a meaning ([tool_calls] on
    assistant messages only, [tool_call_id] on tool messages only), and
    which carries the field its role asks for (an assistant message a
    list of tool calls, each marked with the type "tool_call"; a tool
    message a [tool_call_id]), converting to the external format and back
    returns the message itself; [tool_calls] of an assistant message and
    [tool_call_id] of a tool message are preserved. *)
Theorem round_trip_identity (m : Message) (s : string) :
  recognized_role (role m) ->
  content m = CStr s ->
  role_fields_only m ->
  role_fields_set m ->
  round_trip m = Ok m.
Proof. apply round_trip_fixes_well_formed. Qed.

Lemma round_trip_identity_witness :
  let call := mkToolCall "lights" "{}" (Some "call_1") (Some "tool_call") in
  round_trip (mkMessage "assistant" (CStr "on it") (Some [call]) None)
  = Ok (mkMessage "assistant" (CStr "on it") (Some [call]) None) /\
  round_trip (mkMessage "tool" (CStr "done") None (Some "call_1"))
  = Ok (mkMessage "tool" (CStr "done") None (Some "call_1")).
Proof.
  intros call. split.
  - apply (round_trip_identity _ "on it").
    + unfold recognized_role. simpl. tauto.
    + reflexivity.
    + split; simpl; intros H; [exfalso; apply H |]; reflexivity.
    + split; simpl; intros H; [| discriminate H].
      exists [call]. split; [reflexivity |].
      constructor; [reflexivity | constructor].
  - apply (round_trip_identity _ "done").
    + unfold recognized_role. simpl. tauto.
    + reflexivity.
    + split; simpl; intros H; [| exfalso; apply H]; reflexivity.
    + split; simpl; intros H; [discriminate H |].
      exists "call_1". reflexivity.
Defined.

(** The string-content condition is needed: an absent content comes back
    as the empty string. *)
Example round_trip_none_content :
  round_trip (Message_ "user" CNone) = Ok (Message_ "user" (CStr "")).
Proof. reflexivity. Qed.

(** The type mark is needed: the assistant variant adds it to a tool call
    that lacks it, so the tool call comes back changed. *)
Example round_trip_marks_tool_calls :
  round_trip (mkMessage "assistant" (CStr "on it")
                (Some [mkToolCall "lights" "{}" (Some "call_1") None]) None)
  = Ok (mkMessage "assistant" (CStr "on it")
          (Some [mkToolCall "lights" "{}" (Some "call_1")
                   (Some "tool_call")]) None).
Proof. reflexivity. Qed.

(** The reverse composition is lossy on non-string contents. *)
Example from_langchain_coerces_blocks :
  from_langchain (HumanMessage (CBlocks ["a"; "b"]))
  = Ok (Message_ "user" (CStr "")).
Proof. reflexivity. Qed.

End BridgeProps.

(** ** Conversation state *)

Module StateProps.
Import Bridge StateStore.

Lemma new_lookup_missing (kwargs : gmap string StoreItem) (field : string) :
  kwargs !! field = None ->
  AppConversationState_new kwargs !! field
  = AppConversationState_defaults !! field.
Proof.
  intros Hnone. unfold AppConversationState_new.
  apply lookup_union_r. exact Hnone.
Qed.

Lemma new_lookup_stored (kwargs : gmap string StoreItem) (field : string)
    (v : StoreItem) :
  kwargs !! field = Some v ->
  AppConversationState_new kwargs !! field = Some v.
Proof.
  intros Hsome. unfold AppConversationState_new.
  apply lookup_union_Some_l. exact Hsome.
Qed.

Lemma new_idempotent (kwargs : gmap string StoreItem) :
  AppConversationState_new (AppConversationState_new kwargs)
  = AppConversationState_new kwargs.
Proof.
  unfold AppConversationState_new.
  rewrite <- (assoc_L (∪)). rewrite (idemp_L (∪)). reflexivity.
Qed.

Lemma load_lookup_missing (key : string) (storage : option Storage)
    (field : string) :
  read storage key !! field = None ->
  AppConversationState_load key storage !! field
  = AppConversationState_defaults !! field.
Proof.
  intros Hnone. unfold AppConversationState_load, ConversationState_load.
  rewrite new_idempotent. apply new_lookup_missing. exact Hnone.
Qed.

(** C8.  When the turn state is loaded and the storage holds no value for
    a conversation field, the materialized conversation state has the
    documented default for it: the empty list for [history], false for
    [lights_on]. *)
Theorem load_missing_fields_take_defaults (conversation_key user_key : string)
    (storage : option Storage) :
  let state := AppTurnState_load conversation_key user_key storage in
  (read storage conversation_key !! "history" = None ->
   conversation state !! "history" = Some (VMessages [])) /\
  (read storage conversation_key !! "lights_on" = None ->
   conversation state !! "lights_on" = Some (VBool false)).
Proof.
  simpl. split; intros Hnone.
  - rewrite (load_lookup_missing _ _ _ Hnone). reflexivity.
  - rewrite (load_lookup_missing _ _ _ Hnone). reflexivity.
Qed.

Lemma load_missing_fields_take_defaults_witness :
  let stored : gmap string StoreItem := {[ "lights_on" := VBool true ]} in
  let storage := Some (mkStorage {[ "teams/bot/conversations/7" := stored ]}) in
  conversation (AppTurnState_load "teams/bot/conversations/7" "u" storage)
    !! "history" = Some (VMessages []) /\
  conversation (AppTurnState_load "teams/bot/conversations/8" "u" storage)
    !! "lights_on" = Some (VBool false).
Proof.
  split.
  - apply (proj1 (load_missing_fields_take_defaults
                    "teams/bot/conversations/7" "u" _)).
    vm_compute. reflexivity.
  - apply (proj2 (load_missing_fields_take_defaults
                    "teams/bot/conversations/8" "u" _)).
    vm_compute. reflexivity.
Defined.

(** A stored field is kept as it is. *)
Lemma load_keeps_stored_fields (key : string) (storage : option Storage)
    (field : string) (v : StoreItem) :
  read storage key !! field = Some v ->
  AppConversationState_load key storage !! field = Some v.
Proof.
  intros Hsome. unfold AppConversationState_load, ConversationState_load.
  rewrite new_idempotent. apply new_lookup_stored. exact Hsome.
Qed.

(** First turn of a conversation: nothing is stored under the key, and
    the partition reads, at its annotated types, as the two defaults. *)
Lemma first_turn_conversation (key : string) (st : Storage) :
  items st !! key = None ->
  typed (AppConversationState_load key (Some st))
  = Some (mkConversation false []).
Proof.
  intros Hnone. unfold typed.
  rewrite !load_lookup_missing;
    try (unfold read; rewrite Hnone; apply lookup_empty).
  reflexivity.
Qed.

End StateProps.

(** ** Responder *)

Module AgentProps.
Import Bridge StateStore Effects Agent Planner Shapes.

Lemma loop_is_flat_map (h : list Entry) (acc : list BaseMessage) :
  fold_left (fun messages msg => messages ++ forwarded msg) h acc
  = acc ++ flat_map forwarded h.
Proof.
  revert acc. induction h as [| e h IH]; intros acc; simpl.
  - symmetry. apply app_nil_r.
  - rewrite IH. symmetry. apply app_assoc.
Qed.

Lemma chat_messages_forwarded (message : string)
    (conversation_history : option (list Entry)) :
  chat_messages message conversation_history
  = forwarded_history conversation_history ++ [HumanMessage (CStr message)].
Proof.
  unfold chat_messages, forwarded_history.
  destruct conversation_history as [[| e h] |]; try reflexivity.
  rewrite loop_is_flat_map. reflexivity.
Qed.

(** What an entry contributes, by cases on its attributes. *)
Lemma forwarded_inv (e : Entry) (m : BaseMessage) :
  In m (forwarded e) <->
  exists c, attr_content e = Some c /\
    ((attr_role e = Some "user" /\ m = HumanMessage c) \/
     (attr_role e = Some "assistant" /\ m = AIMessage c (Some []))).
Proof.
  unfold forwarded.
  destruct (attr_role e) as [r |]; destruct (attr_content e) as [c |].
  - destruct (String.eqb_spec r "user") as [-> | Huser].
    + simpl. split.
      * intros [<- | []]. exists c. auto.
      * intros (c' & [= <-] & [[_ ->] | [[= ] _]]). auto.
    + destruct (String.eqb_spec r "assistant") as [-> | Hassistant].
      * simpl. split.
        -- intros [<- | []]. exists c. auto.
        -- intros (c' & [= <-] & [[[= ] _] | [_ ->]]). auto.
      * simpl. split; [tauto |].
        intros (c' & _ & [[[= ->] _] | [[= ->] _]]); congruence.
  - split; [simpl; tauto |]. intros (c' & [= ] & _).
  - split; [simpl; tauto |]. intros (c' & _ & [[[= ] _] | [[= ] _]]).
  - split; [simpl; tauto |]. intros (c' & [= ] & _).
Qed.

Lemma forwarded_no_system (e : Entry) :
  Forall (fun m => is_SystemMessage m = false) (forwarded e).
Proof.
  apply List.Forall_forall. intros m Hin.
  apply forwarded_inv in Hin.
  destruct Hin as (c & _ & [[_ ->] | [_ ->]]); reflexivity.
Qed.

Lemma forwarded_history_no_system (h : option (list Entry)) :
  Forall (fun m => is_SystemMessage m = false) (forwarded_history h).
Proof.
  unfold forwarded_history.
  induction (default [] h) as [| e l IH]; simpl.
  - constructor.
  - apply Forall_app. split; [apply forwarded_no_system | exact IH].
Qed.

(** The message list sent to the model, by cases on what the loop kept. *)
Lemma sent_to_model_cases (self : SimpleLangGraphAgent) (message : string)
    (h : option (list Entry)) :
  sent_to_model self message h
  = match forwarded_history h with
    | [] => [SystemMessage (CStr (system_prompt self));
             HumanMessage (CStr message)]
    | kept => kept ++ [HumanMessage (CStr message)]
    end.
Proof.
  unfold sent_to_model. rewrite chat_messages_forwarded.
  destruct (forwarded_history h) as [| m1 [| m2 kept]]; try reflexivity.
Qed.

(** One step of the loop: either the constructor accepts the content and
    the step appends what [forwarded] says, or the entry is a user or an
    assistant entry whose content is [None] and the step raises. *)
Lemma forward_cases (e : Entry) :
  (~ rejected e /\ forward e = Ok (forwarded e)) \/
  (rejected e /\
   ((attr_role e = Some "user" /\
     forward e = Raise (ValidationError "HumanMessage")) \/
    (attr_role e = Some "assistant" /\
     forward e = Raise (ValidationError "AIMessage")))).
Proof.
  unfold rejected, forward, forwarded.
  destruct (attr_role e) as [r |]; destruct (attr_content e) as [c |];
    try (left; split; [| reflexivity]; intros [H _]; discriminate H);
    try (left; split; [| reflexivity]; intros [_ [H | H]]; discriminate H).
  destruct (String.eqb_spec r "user") as [-> | Huser].
  - destruct c; simpl; try (left; split; [| reflexivity];
                            intros [H _]; discriminate H).
    right. auto.
  - destruct (String.eqb_spec r "assistant") as [-> | Hassistant].
    + destruct c; simpl; try (left; split; [| reflexivity];
                              intros [H _]; discriminate H).
      right. auto.
    + left. split; [| reflexivity].
      intros [_ [[= ->] | [= ->]]]; congruence.
Qed.

Lemma convert_history_cases (h : list Entry) (acc : list BaseMessage) :
  (Forall (fun e => ~ rejected e) h /\
   convert_history h acc = Ok (acc ++ flat_map forwarded h)) \/
  (Exists rejected h /\
   exists cls, convert_history h acc = Raise (ValidationError cls)).
Proof.
  revert acc. induction h as [| e h IH]; intros acc; simpl.
  - left. rewrite app_nil_r. split; [constructor | reflexivity].
  - destruct (forward_cases e) as [[Hok ->] | [Hbad Hraise]].
    + unfold Ok at 1. cbn beta iota.
      destruct (IH (acc ++ forwarded e)) as [[Hall ->] | [Hex Hraise]].
      * left. rewrite <- app_assoc. split; [constructor; assumption |].
        reflexivity.
      * right. split; [apply Exists_cons_tl; exact Hex | exact Hraise].
    + right. split; [apply Exists_cons_hd; exact Hbad |].
      destruct Hraise as [[_ ->] | [_ ->]]; eauto.
Qed.

(** Building the message list: it succeeds, with the list
    [chat_messages], exactly when no entry of the history is a user or
    an assistant entry whose content is [None]; otherwise the constructor
    called on the first such entry raises. *)
Lemma build_messages_cases (message : string) (h : option (list Entry)) :
  (Forall (fun e => ~ rejected e) (default [] h) /\
   build_messages message h = Ok (chat_messages message h)) \/
  (Exists rejected (default [] h) /\
   exists cls, build_messages message h = Raise (ValidationError cls)).
Proof.
  unfold build_messages. rewrite chat_messages_forwarded.
  unfold forwarded_history.
  destruct h as [[| e h] |]; simpl default;
    try (left; split; [constructor | reflexivity]).
  destruct (convert_history_cases (e :: h) []) as [[Hall ->] | [Hex [cls ->]]].
  - left. split; [exact Hall | reflexivity].
  - right. split; [exact Hex | eauto].
Qed.

Lemma build_messages_ok (message : string) (h : option (list Entry))
    (messages : list BaseMessage) :
  build_messages message h = Ok messages ->
  messages = chat_messages message h /\
  Forall (fun e => ~ rejected e) (default [] h).
Proof.
  destruct (build_messages_cases message h) as [[Hall ->] | [_ [cls ->]]].
  - intros [= <-]. auto.
  - discriminate.
Qed.

(** One run of [chat]: it records its arguments, builds the message list
    and, if that does not raise, invokes the model exactly once, with the
    list [node_messages] makes of it; the reply content is returned and a
    failure is raised. *)
Lemma chat_run (self : SimpleLangGraphAgent) (w : World) (message : string)
    (h : option (list Entry)) (s : Store) :
  chat self w message h s
  = match build_messages message h with
    | inr e =>
        (Raise e,
         mkStore (st_agent s) (st_conversation s)
           (st_log s ++ [ChatCalled message h]))
    | inl messages =>
        (match ainvoke w (llm self) (node_messages self messages) with
         | inl response => Ok (ext_content response)
         | inr e => Raise e
         end,
         mkStore (st_agent s) (st_conversation s)
           (st_log s ++ [ChatCalled message h;
                         ModelInvoked (llm self)
                           (node_messages self messages)]))
    end.
Proof.
  unfold chat, graph_ainvoke, _chat_node, bind, emit, lift, ret.
  simpl.
  destruct (build_messages message h) as [messages | e]; simpl;
    [| reflexivity].
  destruct (ainvoke w (llm self) (node_messages self messages))
    as [response | e]; simpl; rewrite <- app_assoc; [| reflexivity].
  rewrite last_snoc. reflexivity.
Qed.

Lemma chat_returns_inv (self : SimpleLangGraphAgent) (w : World)
    (message : string) (h : option (list Entry)) (reply : Content) :
  chat_returns self w message h reply ->
  build_messages message h = Ok (chat_messages message h) /\
  exists response,
    ainvoke w (llm self) (sent_to_model self message h) = inl response /\
    ext_content response = reply.
Proof.
  intros Hret.
  specialize (Hret (mkStore None (mkConversation false []) [])).
  rewrite chat_run in Hret.
  destruct (build_messages_cases message h) as [[_ Hb] | [_ [cls Hb]]];
    rewrite Hb in Hret; [| discriminate Hret].
  split; [exact Hb |]. unfold sent_to_model. simpl in Hret.
  destruct (ainvoke w (llm self) _) as [response | e];
    [| discriminate Hret].
  exists response. split; [reflexivity |].
  injection Hret as Hret. exact Hret.
Qed.

Lemma chat_raises_inv (self : SimpleLangGraphAgent) (w : World)
    (message : string) (h : option (list Entry)) (e : Exception) :
  chat_raises self w message h e ->
  build_messages message h = Raise e \/
  (build_messages message h = Ok (chat_messages message h) /\
   ainvoke w (llm self) (sent_to_model self message h) = inr e).
Proof.
  intros Hraise.
  specialize (Hraise (mkStore None (mkConversation false []) [])).
  rewrite chat_run in Hraise.
  destruct (build_messages_cases message h) as [[_ Hb] | [_ [cls Hb]]];
    rewrite Hb in Hraise |- *; simpl in Hraise.
  - right. split; [reflexivity |]. unfold sent_to_model.
    destruct (ainvoke w (llm self) _) as [response | e'];
      [discriminate Hraise |].
    injection Hraise as ->. reflexivity.
  - left. injection Hraise as ->. reflexivity.
Qed.

Lemma model_calls_app (l1 l2 : list Event) :
  model_calls (l1 ++ l2) = model_calls l1 ++ model_calls l2.
Proof. unfold model_calls. apply flat_map_app. Qed.

(** [chat] invokes the model at most once: not at all when building the
    message list raises, once with [sent_to_model] otherwise. *)
Lemma chat_model_calls (self : SimpleLangGraphAgent) (w : World)
    (message : string) (h : option (list Entry)) (s : Store) :
  (Exists rejected (default [] h) /\
   model_calls (st_log (snd (chat self w message h s)))
   = model_calls (st_log s)) \/
  (Forall (fun e => ~ rejected e) (default [] h) /\
   model_calls (st_log (snd (chat self w message h s)))
   = model_calls (st_log s) ++ [sent_to_model self message h]).
Proof.
  rewrite chat_run.
  destruct (build_messages_cases message h) as [[Hall ->] | [Hex [cls ->]]];
    unfold Ok, Raise; cbn [snd st_log]; rewrite model_calls_app; simpl.
  - right. split; [exact Hall | reflexivity].
  - left. split; [exact Hex | apply app_nil_r].
Qed.

(** C9, as stated, fails: with a prior history that is not empty but
    holds only a system message, which the loop of [chat] drops, the graph
    receives the single user message and the model is invoked with the
    system instruction in front. *)
Lemma system_instruction_sent_with_nonempty_history :
  let self := mkAgent "Be terse." 0 in
  let prior := [entry_of (Message_ "system" (CStr "Earlier note."))] in
  prior <> [] /\
  sent_to_model self "hi" (Some prior)
  = [SystemMessage (CStr "Be terse."); HumanMessage (CStr "hi")] /\
  Exists (fun m => is_SystemMessage m = true)
    (sent_to_model self "hi" (Some prior)).
Proof.
  simpl. split; [discriminate |]. split; [reflexivity |].
  apply Exists_cons_hd. reflexivity.
Qed.

(** C9, amended.  The node puts the responder's system instruction in
    front of the messages sent to the model exactly when the message list
    handed to the graph holds exactly one message and that message is a
    user message, and leaves the list unchanged otherwise.  For a chat
    call this is the case exactly when no entry of the prior history is
    forwarded (the history is absent, empty, or holds only dropped
    entries); for every chat call whose prior history has at least one
    forwarded entry, the model is invoked with the forwarded entries
    followed by the new user message, and with no system message at
    all. *)
Theorem system_instruction_sent_iff_single_user_message
    (self : SimpleLangGraphAgent) (message : string)
    (h : option (list Entry)) :
  (forall messages,
     (forall c, messages = [HumanMessage c] ->
        node_messages self messages
        = SystemMessage (CStr (system_prompt self)) :: messages) /\
     ((forall c, messages <> [HumanMessage c]) ->
        node_messages self messages = messages)) /\
  (forwarded_history h = [] ->
   sent_to_model self message h
   = [SystemMessage (CStr (system_prompt self));
      HumanMessage (CStr message)]) /\
  (forwarded_history h <> [] ->
   sent_to_model self message h
   = forwarded_history h ++ [HumanMessage (CStr message)] /\
   Forall (fun m => is_SystemMessage m = false)
     (sent_to_model self message h)).
Proof.
  split; [| split].
  - intros messages. split.
    + intros c ->. reflexivity.
    + intros Hnot. unfold node_messages.
      destruct messages as [| m [| m' rest]]; try reflexivity.
      destruct m; try reflexivity.
      exfalso. apply (Hnot c). reflexivity.
  - intros Hnone. rewrite sent_to_model_cases, Hnone. reflexivity.
  - intros Hsome. rewrite sent_to_model_cases.
    destruct (forwarded_history h) as [| m kept] eqn:Hkept;
      [congruence |].
    split; [reflexivity |].
    apply Forall_app. split.
    + rewrite <- Hkept. apply forwarded_history_no_system.
    + constructor; [reflexivity | constructor].
Qed.

Lemma system_instruction_sent_iff_single_user_message_witness :
  let self := mkAgent "Be terse." 0 in
  let prior := Some [entry_of (Message_ "user" (CStr "Hello"));
                     entry_of (Message_ "assistant" (CStr "Hi!"))] in
  sent_to_model self "Bye" (Some [])
  = [SystemMessage (CStr "Be terse."); HumanMessage (CStr "Bye")] /\
  sent_to_model self "Bye" prior
  = [HumanMessage (CStr "Hello"); AIMessage (CStr "Hi!") (Some []);
     HumanMessage (CStr "Bye")] /\
  node_messages self [AIMessage (CStr "Hi!") None]
  = [AIMessage (CStr "Hi!") None].
Proof.
  intros self prior. split; [| split].
  - apply (proj1 (proj2 (system_instruction_sent_iff_single_user_message
                           self "Bye" (Some [])))).
    reflexivity.
  - refine (proj1 (proj2 (proj2
              (system_instruction_sent_iff_single_user_message
                 self "Bye" prior)) _)).
    simpl. discriminate.
  - apply (proj1 (system_instruction_sent_iff_single_user_message
                    self "Bye" None)).
    intros c. discriminate.
Defined.

(** C10.  Of a prior history, [chat] forwards only the entries that have
    both a [role] and a [content] attribute and whose role is "user" or
    "assistant".  Whenever the message list is built, it holds, in order,
    one user or assistant message with the entry's content for each such
    entry, followed by the new user message, and nothing else; an entry
    with any other role (system, tool) or lacking one of the attributes
    contributes nothing and raises nothing.  The model is invoked at most
    once, and every message that reaches it is the system instruction,
    the new user message, or the conversion of such a user or assistant
    entry. *)
Theorem chat_forwards_only_user_and_assistant
    (self : SimpleLangGraphAgent) (w : World) (message : string)
    (h : option (list Entry)) (s : Store) :
  (forall messages,
     build_messages message h = Ok messages ->
     messages = forwarded_history h ++ [HumanMessage (CStr message)] /\
     forall m,
       In m (forwarded_history h) <->
       exists e c,
         In e (default [] h) /\ attr_content e = Some c /\
         ((attr_role e = Some "user" /\ m = HumanMessage c) \/
          (attr_role e = Some "assistant" /\ m = AIMessage c (Some [])))) /\
  (forall e,
     (attr_role e <> Some "user" /\ attr_role e <> Some "assistant") \/
     attr_content e = None ->
     forward e = Ok []) /\
  (forall sent,
     In sent (model_calls (st_log (snd (chat self w message h s)))) ->
     In sent (model_calls (st_log s)) \/
     (build_messages message h = Ok (chat_messages message h) /\
      sent = node_messages self (chat_messages message h) /\
      forall m,
        In m sent ->
        m = SystemMessage (CStr (system_prompt self)) \/
        m = HumanMessage (CStr message) \/
        exists e c,
          In e (default [] h) /\ attr_content e = Some c /\
          ((attr_role e = Some "user" /\ m = HumanMessage c) \/
           (attr_role e = Some "assistant" /\ m = AIMessage c (Some []))))) /\
  length (model_calls (st_log (snd (chat self w message h s))))
  <= length (model_calls (st_log s)) + 1.
Proof.
  assert (forall m,
            In m (forwarded_history h) <->
            exists e c,
              In e (default [] h) /\ attr_content e = Some c /\
              ((attr_role e = Some "user" /\ m = HumanMessage c) \/
               (attr_role e = Some "assistant" /\ m = AIMessage c (Some []))))
    as Hkept.
  { intros m. unfold forwarded_history. rewrite in_flat_map. split.
    - intros (e & Hin & Hm). apply forwarded_inv in Hm.
      destruct Hm as (c & Hc & Hcases). exists e, c. auto.
    - intros (e & c & Hin & Hc & Hcases). exists e. split; [exact Hin |].
      apply forwarded_inv. exists c. auto. }
  split; [| split; [| split]].
  - intros messages Hbuilt.
    destruct (build_messages_ok _ _ _ Hbuilt) as [-> _].
    split; [apply chat_messages_forwarded | exact Hkept].
  - intros e Hdropped. unfold forward.
    destruct (attr_role e) as [r |]; destruct (attr_content e) as [c |];
      try reflexivity.
    destruct Hdropped as [[Huser Hassistant] | Hnone];
      [| discriminate Hnone].
    destruct (String.eqb_spec r "user") as [-> | _]; [congruence |].
    destruct (String.eqb_spec r "assistant") as [-> | _]; [congruence |].
    reflexivity.
  - intros sent Hsent.
    destruct (chat_model_calls self w message h s)
      as [[_ Hcalls] | [Hall Hcalls]]; rewrite Hcalls in Hsent.
    + left. exact Hsent.
    + apply in_app_or in Hsent. destruct Hsent as [Hold | [<- | []]];
        [left; exact Hold |].
      right.
      destruct (build_messages_cases message h) as [[_ Hb] | [Hex _]].
      * split; [exact Hb |]. split; [reflexivity |].
        intros m.
        change (node_messages self (chat_messages message h))
          with (sent_to_model self message h).
        rewrite sent_to_model_cases.
        destruct (forwarded_history h) as [| m1 kept] eqn:Hf.
        -- simpl. intros [<- | [<- | []]]; auto.
        -- intros Hin. apply in_app_or in Hin.
           destruct Hin as [Hin | [<- | []]]; auto.
           right. right. apply Hkept. rewrite ?Hf. exact Hin.
      * exfalso. apply List.Exists_exists in Hex.
        destruct Hex as (e & Hin & Hbad).
        rewrite List.Forall_forall in Hall. exact (Hall e Hin Hbad).
  - destruct (chat_model_calls self w message h s)
      as [[_ ->] | [_ ->]]; [lia |].
    rewrite length_app. simpl. lia.
Qed.

Lemma chat_forwards_only_user_and_assistant_witness :
  let prior := Some [entry_of (Message_ "system" (CStr "Rules."));
                     entry_of (Message_ "user" (CStr "Hello"));
                     OtherObject (Some "user") None;
                     entry_of (mkMessage "tool" (CStr "42") None (Some "c1"));
                     entry_of (Message_ "assistant" (CStr "Hi!"))] in
  [HumanMessage (CStr "Hello"); AIMessage (CStr "Hi!") (Some []);
   HumanMessage (CStr "Bye")]
  = forwarded_history prior ++ [HumanMessage (CStr "Bye")] /\
  forward (entry_of (Message_ "system" (CStr "Rules."))) = Ok [].
Proof.
  intros prior. split.
  - refine (proj1 (proj1 (chat_forwards_only_user_and_assistant
                            (mkAgent "Be terse." 0) Scenario.answering "Bye"
                            prior Scenario.fresh) _ _)).
    reflexivity.
  - apply (proj1 (proj2 (chat_forwards_only_user_and_assistant
                           (mkAgent "Be terse." 0) Scenario.answering "Bye"
                           prior Scenario.fresh))).
    left. split; discriminate.
Defined.

End AgentProps.

(** ** Turn planner *)

Module PlannerProps.
Import Bridge StateStore Effects Agent Planner AgentProps Scenario.

(** Symbolic execution of [_ensure_agent_initialized]. *)
Lemma ensure_run (w : World) (context : TurnContext)
    (ag : option SimpleLangGraphAgent) (c : AppConversationState)
    (l : list Event) :
  _ensure_agent_initialized w context (mkStore ag c l)
  = match ag with
    | Some _ => (Ok tt, mkStore ag c l)
    | None =>
        match prompt_factory w with
        | inr e => (Raise e, mkStore None c (l ++ [PromptLoaded]))
        | inl t =>
            match render_as_text w t with
            | inr e =>
                (Raise e, mkStore None c (l ++ [PromptLoaded; PromptRendered t]))
            | inl p =>
                match new_client w with
                | inr e =>
                    (Raise e,
                     mkStore None c
                       (l ++ [PromptLoaded; PromptRendered t; ClientRequested]))
                | inl k =>
                    let a := mkAgent (if (p =? "")%string
                                      then default_system_prompt else p) k in
                    (Ok tt,
                     mkStore (Some a) c
                       (l ++ [PromptLoaded; PromptRendered t; ClientRequested;
                              AgentAssigned a;
                              Logged DEBUG
                                "Initialized agent with system prompt: %s..."
                                [AStr (substring 0 100 p)]]))
                end
            end
        end
    end.
Proof.
  unfold _ensure_agent_initialized, SimpleLangGraphAgent_init, logger,
    set_agent, bind, gets, emit, lift, ret.
  destruct ag as [a |]; simpl; [reflexivity |].
  destruct (prompt_factory w) as [t | e]; simpl; [| reflexivity].
  destruct (render_as_text w t) as [p | e]; simpl;
    [| rewrite <- !app_assoc; reflexivity].
  destruct (new_client w) as [k | e]; simpl;
    rewrite <- !app_assoc; reflexivity.
Qed.

(** Symbolic execution of [_generate_response]. *)
Lemma generate_run (w : World) (context : TurnContext)
    (ag : option SimpleLangGraphAgent) (c : AppConversationState)
    (l : list Event) :
  _generate_response w context (mkStore ag c l)
  = let text := activity_text context in
    let prior := prior_of (history c) in
    let passed := Some (map entry_of prior) in
    match ag with
    | None =>
        (Ok (mkPlan [PredictedSayCommand (Message_ "assistant" (CStr apology))]),
         mkStore None c
           (l ++ [Logged ERROR "Error generating response: %s"
                    [AExc (AttributeError
                             "'NoneType' object has no attribute 'chat'")]]))
    | Some a =>
        match build_messages text passed with
        | inr e =>
            (Ok (mkPlan [PredictedSayCommand
                           (Message_ "assistant" (CStr apology))]),
             mkStore (Some a) c
               (l ++ [ChatCalled text passed;
                      Logged ERROR "Error generating response: %s" [AExc e]]))
        | inl messages =>
            let sent := node_messages a messages in
            match ainvoke w (llm a) sent with
            | inl response =>
                let reply := ext_content response in
                (Ok (mkPlan [PredictedSayCommand
                               (Message_ "assistant" reply)]),
                 mkStore (Some a)
                   (mkConversation (lights_on c)
                      (history c ++ [Message_ "assistant" reply]))
                   (l ++ [ChatCalled text passed; ModelInvoked (llm a) sent;
                          Logged DEBUG "agent response (with history) => %s"
                            [AContent reply];
                          Logged DEBUG "conversation history length => %d"
                            [ALen (length prior)]]))
            | inr e =>
                (Ok (mkPlan [PredictedSayCommand
                               (Message_ "assistant" (CStr apology))]),
                 mkStore (Some a) c
                   (l ++ [ChatCalled text passed; ModelInvoked (llm a) sent;
                          Logged ERROR "Error generating response: %s"
                            [AExc e]]))
            end
        end
    end.
Proof.
  destruct ag as [a |];
    cbv [_generate_response prior_of try_except bind gets raise emit logger
         history_append ret Ok Raise st_agent st_conversation st_log].
  - rewrite chat_run.
    destruct (build_messages _ _) as [messages | e];
      cbv [st_agent st_conversation st_log Ok Raise].
    + destruct (ainvoke w (llm a) _) as [response | e];
        rewrite <- !app_assoc; reflexivity.
    + rewrite <- !app_assoc. reflexivity.
  - reflexivity.
Qed.

(** Both entry points: initialization, then the user message is appended
    and the response generated; an initialization failure propagates. *)
Lemma plan_turn_run (entry : EntryPoint) (w : World) (context : TurnContext)
    (s : Store) :
  plan_turn entry w context s
  = match _ensure_agent_initialized w context s with
    | (inl _, s1) =>
        _generate_response w context
          (mkStore (st_agent s1)
             (mkConversation (lights_on (st_conversation s1))
                (history (st_conversation s1)
                 ++ [Message_ "user" (CStr (activity_text context))]))
             (st_log s1
              ++ [Logged DEBUG (entry_log_line entry)
                    [AStr (activity_text context)]]))
    | (inr e, s1) => (Raise e, s1)
    end.
Proof.
  destruct entry; unfold plan_turn, begin_task, continue_task;
    unfold bind at 1;
    destruct (_ensure_agent_initialized w context s) as [[[] | e] s1];
    reflexivity.
Qed.

(** What initialization leaves behind, whatever its outcome. *)
Lemma ensure_inv (w : World) (context : TurnContext) (s : Store)
    (r : result unit) (s1 : Store) :
  _ensure_agent_initialized w context s = (r, s1) ->
  st_conversation s1 = st_conversation s /\
  (r = Ok tt -> exists a, st_agent s1 = Some a) /\
  exists evs, st_log s1 = st_log s ++ evs /\
              chat_calls evs = [] /\ model_calls evs = [].
Proof.
  destruct s as [ag c l]. rewrite ensure_run. simpl.
  destruct ag as [a |].
  - intros [= <- <-]. simpl. split; [reflexivity |]. split; [eauto |].
    exists []. rewrite app_nil_r. auto.
  - destruct (prompt_factory w) as [t | e].
    + destruct (render_as_text w t) as [p | e].
      * destruct (new_client w) as [k | e]; intros [= <- <-]; simpl;
          (split; [reflexivity |]); (split; [try discriminate; eauto |]);
          eexists; (split; [reflexivity |]); split; reflexivity.
      * intros [= <- <-]. simpl. split; [reflexivity |].
        split; [discriminate |].
        eexists. split; [reflexivity |]. split; reflexivity.
    + intros [= <- <-]. simpl. split; [reflexivity |].
      split; [discriminate |].
      eexists. split; [reflexivity |]. split; reflexivity.
Qed.

Lemma prior_of_snoc (h : list Message) (m : Message) :
  prior_of (h ++ [m]) = h.
Proof.
  unfold prior_of. rewrite length_app. simpl.
  replace (0 <? length h + 1)%nat with true
    by (symmetry; apply Nat.ltb_lt; lia).
  apply removelast_last.
Qed.

Lemma chat_calls_app (l1 l2 : list Event) :
  chat_calls (l1 ++ l2) = chat_calls l1 ++ chat_calls l2.
Proof. unfold chat_calls. apply flat_map_app. Qed.

(** A turn whose initialization returns, up to the model invocation. *)
Lemma plan_turn_initialized (entry : EntryPoint) (w : World)
    (context : TurnContext) (s s1 : Store) :
  _ensure_agent_initialized w context s = (Ok tt, s1) ->
  exists a evs,
    st_agent s1 = Some a /\
    st_log s1 = st_log s ++ evs /\
    chat_calls evs = [] /\ model_calls evs = [] /\
    plan_turn entry w context s
    = _generate_response w context
        (mkStore (Some a)
           (mkConversation (lights_on (st_conversation s))
              (history (st_conversation s)
               ++ [Message_ "user" (CStr (activity_text context))]))
           (st_log s ++ evs
            ++ [Logged DEBUG (entry_log_line entry)
                  [AStr (activity_text context)]])).
Proof.
  intros Hinit. rewrite plan_turn_run, Hinit.
  destruct (ensure_inv _ _ _ _ _ Hinit)
    as (Hconv & Hagent & evs & Hlog & Hchat & Hmodel).
  destruct (Hagent eq_refl) as [a Ha].
  exists a, evs. rewrite Ha, Hconv, Hlog, <- app_assoc. auto.
Qed.

(** A turn whose initialization raises: the exception propagates, no Plan
    is produced, the conversation is untouched and [chat] is not called. *)
Lemma initialization_failure_propagates (entry : EntryPoint) (w : World)
    (context : TurnContext) (s s1 : Store) (e : Exception) :
  _ensure_agent_initialized w context s = (Raise e, s1) ->
  plan_turn entry w context s = (Raise e, s1) /\
  st_conversation s1 = st_conversation s /\
  chat_calls (st_log s1) = chat_calls (st_log s).
Proof.
  intros Hinit. rewrite plan_turn_run, Hinit.
  destruct (ensure_inv _ _ _ _ _ Hinit)
    as (Hconv & _ & evs & Hlog & Hchat & _).
  split; [reflexivity |]. split; [exact Hconv |].
  rewrite Hlog, chat_calls_app, Hchat. apply app_nil_r.
Qed.

(** C1.  For every turn, through either entry point, in which
    initialization returns and the responder's [chat] returns a reply,
    the planner returns a Plan with exactly one command, a say command
    carrying the assistant message whose content is the reply, and the
    history afterwards is the history before the turn followed by the
    user's message and that same assistant message: the last but one
    element is the user message and the last element the assistant
    message with the reply as content. *)
Theorem plan_carries_reply_and_history_ends_with_it (entry : EntryPoint)
    (w : World) (context : TurnContext) (s s1 : Store)
    (a : SimpleLangGraphAgent) (reply : Content) :
  _ensure_agent_initialized w context s = (Ok tt, s1) ->
  st_agent s1 = Some a ->
  chat_returns a w (activity_text context)
    (Some (map entry_of (history (st_conversation s)))) reply ->
  let user_message := Message_ "user" (CStr (activity_text context)) in
  let assistant_message := Message_ "assistant" reply in
  let after := st_conversation (snd (plan_turn entry w context s)) in
  fst (plan_turn entry w context s)
  = Ok (mkPlan [PredictedSayCommand assistant_message]) /\
  history after
  = history (st_conversation s) ++ [user_message; assistant_message] /\
  last (history after) = Some assistant_message /\
  last (removelast (history after)) = Some user_message /\
  role user_message = "user" /\ role assistant_message = "assistant" /\
  content assistant_message = reply.
Proof.
  intros Hinit Hagent Hreply user_message assistant_message after.
  destruct (plan_turn_initialized entry _ _ _ _ Hinit)
    as (a' & evs & Ha' & _ & _ & _ & Hrun).
  assert (a' = a) as -> by congruence.
  apply chat_returns_inv in Hreply.
  destruct Hreply as (Hbuilt & response & Hmodel & Hcontent).
  unfold sent_to_model in Hmodel.
  assert (history after
          = history (st_conversation s) ++ [user_message; assistant_message]
          /\ fst (plan_turn entry w context s)
             = Ok (mkPlan [PredictedSayCommand assistant_message]))
    as [Hhistory Hplan].
  { subst after. rewrite Hrun, generate_run. cbn zeta.
    cbn [history]. rewrite prior_of_snoc, Hbuilt.
    cbv beta iota zeta delta [Ok]. rewrite Hmodel, Hcontent.
    cbn [fst snd st_conversation history].
    rewrite <- app_assoc. split; reflexivity. }
  split; [exact Hplan |]. split; [exact Hhistory |].
  rewrite Hhistory.
  replace (history (st_conversation s) ++ [user_message; assistant_message])
    with ((history (st_conversation s) ++ [user_message])
          ++ [assistant_message])
    by (rewrite <- app_assoc; reflexivity).
  rewrite removelast_last, !last_snoc. auto.
Qed.

(** C2.  For every turn, through either entry point, in which
    initialization returns and the responder's [chat] raises an
    exception, the planner does not raise: it returns a Plan with exactly
    one command, whose message content is the fixed apology text, and the
    history afterwards is the history before the turn followed by the
    user's message only. *)
Theorem plan_apologizes_and_history_ends_with_user (entry : EntryPoint)
    (w : World) (context : TurnContext) (s s1 : Store)
    (a : SimpleLangGraphAgent) (e : Exception) :
  _ensure_agent_initialized w context s = (Ok tt, s1) ->
  st_agent s1 = Some a ->
  chat_raises a w (activity_text context)
    (Some (map entry_of (history (st_conversation s)))) e ->
  let user_message := Message_ "user" (CStr (activity_text context)) in
  let after := st_conversation (snd (plan_turn entry w context s)) in
  fst (plan_turn entry w context s)
  = Ok (mkPlan [PredictedSayCommand
                  (Message_ "assistant"
                     (CStr "I apologize, but I encountered an error while processing your request. Please try again."))]) /\
  history after = history (st_conversation s) ++ [user_message] /\
  last (history after) = Some user_message.
Proof.
  intros Hinit Hagent Hraise user_message after.
  destruct (plan_turn_initialized entry _ _ _ _ Hinit)
    as (a' & evs & Ha' & _ & _ & _ & Hrun).
  assert (a' = a) as -> by congruence.
  apply chat_raises_inv in Hraise.
  assert (history after = history (st_conversation s) ++ [user_message]
          /\ fst (plan_turn entry w context s)
             = Ok (mkPlan [PredictedSayCommand
                             (Message_ "assistant" (CStr apology))]))
    as [Hhistory Hplan].
  { subst after. rewrite Hrun, generate_run. cbn zeta.
    cbn [history]. rewrite prior_of_snoc.
    destruct Hraise as [Hbuilt | [Hbuilt Hmodel]]; rewrite Hbuilt.
    - split; reflexivity.
    - unfold sent_to_model in Hmodel.
      cbv beta iota zeta delta [Ok]. rewrite Hmodel.
      split; reflexivity. }
  split; [exact Hplan |]. split; [exact Hhistory |].
  rewrite Hhistory. apply last_snoc.
Qed.

(** C5.  For every turn, through either entry point, in which
    initialization returns, the responder's [chat] is entered exactly
    once, after the user message has been appended to the history, and
    the arguments it receives (which [chat] itself records on entry) are
    the incoming text and the list of the messages of the appended
    history less its last element, which is the history as it was before
    the turn, in order. *)
Theorem chat_called_with_text_and_prior_history (entry : EntryPoint)
    (w : World) (context : TurnContext) (s s1 : Store) :
  _ensure_agent_initialized w context s = (Ok tt, s1) ->
  let appended :=
    history (st_conversation s)
    ++ [Message_ "user" (CStr (activity_text context))] in
  chat_calls (st_log (snd (plan_turn entry w context s)))
  = chat_calls (st_log s)
    ++ [(activity_text context, Some (map entry_of (removelast appended)))] /\
  removelast appended = history (st_conversation s).
Proof.
  intros Hinit appended.
  destruct (plan_turn_initialized entry _ _ _ _ Hinit)
    as (a & evs & _ & _ & Hchat & _ & Hrun).
  subst appended. rewrite removelast_last. split; [| reflexivity].
  rewrite Hrun, generate_run. cbn zeta. cbn [history].
  rewrite prior_of_snoc.
  destruct (build_messages _ _) as [messages | e0];
    [destruct (ainvoke w (llm a) _) as [response | e] |];
    cbn [snd st_log]; rewrite !chat_calls_app, Hchat; simpl;
    rewrite app_nil_r; reflexivity.
Qed.

Lemma plan_carries_reply_and_history_ends_with_it_witness :
  fst (begin_task answering question fresh)
  = Ok (mkPlan [PredictedSayCommand (Message_ "assistant" (CStr "Oslo."))]) /\
  history (st_conversation (snd (begin_task answering question fresh)))
  = [Message_ "user" (CStr "Hello! What is the capital of Norway?");
     Message_ "assistant" (CStr "Oslo.")].
Proof.
  assert (_ensure_agent_initialized answering question fresh
          = (Ok tt,
             snd (_ensure_agent_initialized answering question fresh)))
    as Hinit by reflexivity.
  assert (st_agent (snd (_ensure_agent_initialized answering question fresh))
          = Some ready_agent) as Hagent by reflexivity.
  assert (chat_returns ready_agent answering (activity_text question)
            (Some (map entry_of (history (st_conversation fresh))))
            (CStr "Oslo.")) as Hreply by (intros s0; reflexivity).
  destruct (plan_carries_reply_and_history_ends_with_it BeginTask
              answering question fresh _ ready_agent (CStr "Oslo.")
              Hinit Hagent Hreply) as (Hplan & Hhistory & _).
  split; [exact Hplan | exact Hhistory].
Defined.

Lemma plan_apologizes_and_history_ends_with_user_witness :
  fst (continue_task model_down question fresh)
  = Ok (mkPlan [PredictedSayCommand
                  (Message_ "assistant"
                     (CStr "I apologize, but I encountered an error while processing your request. Please try again."))]) /\
  history (st_conversation (snd (continue_task model_down question fresh)))
  = [Message_ "user" (CStr "Hello! What is the capital of Norway?")].
Proof.
  assert (_ensure_agent_initialized model_down question fresh
          = (Ok tt,
             snd (_ensure_agent_initialized model_down question fresh)))
    as Hinit by reflexivity.
  assert (st_agent (snd (_ensure_agent_initialized model_down question fresh))
          = Some ready_agent) as Hagent by reflexivity.
  assert (chat_raises ready_agent model_down (activity_text question)
            (Some (map entry_of (history (st_conversation fresh))))
            (Failure "model call timed out")) as Hraise
    by (intros s0; reflexivity).
  destruct (plan_apologizes_and_history_ends_with_user ContinueTask
              model_down question fresh _ ready_agent _
              Hinit Hagent Hraise) as (Hplan & Hhistory & _).
  split; [exact Hplan | exact Hhistory].
Defined.

Lemma chat_called_with_text_and_prior_history_witness :
  let s := snd (run_call (first_call answering) fresh) in
  chat_calls (st_log (snd (run_call (later_call answering) s)))
  = [("Hello! What is the capital of Norway?", Some []);
     ("Hello! What is the capital of Norway?",
      Some [OfMessage
              (Message_ "user" (CStr "Hello! What is the capital of Norway?"));
            OfMessage (Message_ "assistant" (CStr "Oslo."))])].
Proof.
  intros s.
  pose (s0 := mkStore (st_agent s)
                (call_conversation (later_call answering)) (st_log s)).
  assert (_ensure_agent_initialized answering question s0 = (Ok tt, s0))
    as Hinit by reflexivity.
  exact (proj1 (chat_called_with_text_and_prior_history ContinueTask
                  answering question s0 s0 Hinit)).
Defined.

Lemma calls_made_app (l1 l2 : list Event) :
  calls_made (l1 ++ l2) = calls_made l1 ++ calls_made l2.
Proof. unfold calls_made. apply List.filter_app. Qed.

(** [_generate_response] does not read the log: run on two stores that
    differ only there, it returns the same Plan, leaves the same responder
    and conversation, and appends the same events. *)
Lemma generate_appends (w : World) (context : TurnContext)
    (ag : option SimpleLangGraphAgent) (c : AppConversationState) :
  exists r c' evs, forall l,
    _generate_response w context (mkStore ag c l)
    = (r, mkStore ag c' (l ++ evs)).
Proof.
  destruct ag as [a |].
  - destruct (build_messages (activity_text context)
                (Some (map entry_of (prior_of (history c)))))
      as [messages | e0] eqn:Hbuilt.
    + destruct (ainvoke w (llm a) (node_messages a messages))
        as [response | e] eqn:Hmodel;
        eexists _, _, _; intros l; rewrite generate_run; cbn zeta;
        rewrite Hbuilt, Hmodel; reflexivity.
    + eexists _, _, _. intros l. rewrite generate_run. cbn zeta.
      rewrite Hbuilt. reflexivity.
  - eexists _, _, _. intros l. rewrite generate_run. reflexivity.
Qed.

(** C7.  [begin_task] and [continue_task] behave alike: for every world,
    turn context and store, both return the same outcome (the same Plan,
    or the same propagated exception), leave the same responder and the
    same conversation state, and make the same calls in the same order;
    only the line each hands to the logger differs. *)
Theorem begin_task_and_continue_task_agree (w : World)
    (context : TurnContext) (s : Store) :
  let b := begin_task w context s in
  let k := continue_task w context s in
  fst b = fst k /\
  st_agent (snd b) = st_agent (snd k) /\
  st_conversation (snd b) = st_conversation (snd k) /\
  calls_made (st_log (snd b)) = calls_made (st_log (snd k)).
Proof.
  intros b k. subst b k.
  change (begin_task w context s) with (plan_turn BeginTask w context s).
  change (continue_task w context s) with (plan_turn ContinueTask w context s).
  rewrite !plan_turn_run.
  destruct (_ensure_agent_initialized w context s) as [[[] | e] s1].
  - destruct (generate_appends w context (st_agent s1)
                (mkConversation (lights_on (st_conversation s1))
                   (history (st_conversation s1)
                    ++ [Message_ "user" (CStr (activity_text context))])))
      as (r & c' & evs & Hrun).
    rewrite !Hrun. cbn [fst snd st_agent st_conversation st_log].
    repeat split.
    rewrite !calls_made_app. reflexivity.
  - repeat split.
Qed.

(** The two entry points are nevertheless two functions: their logger
    lines differ. *)
Example entry_points_log_differently :
  st_log (snd (begin_task answering question fresh))
  <> st_log (snd (continue_task answering question fresh)).
Proof. vm_compute. discriminate. Qed.

Lemma count_app (p : Event -> bool) (l1 l2 : list Event) :
  count p (l1 ++ l2) = count p l1 + count p l2.
Proof. unfold count. rewrite List.filter_app. apply length_app. Qed.

(** The effect of one call on the responder and on the log. *)
Lemma run_call_effect (c : Call) (s : Store) :
  exists evs,
    st_log (snd (run_call c s)) = st_log s ++ evs /\
    match st_agent s with
    | Some a =>
        st_agent (snd (run_call c s)) = Some a /\
        prompt_loads evs = 0 /\ prompt_renders evs = 0 /\
        client_requests evs = 0 /\ agent_assignments evs = 0
    | None =>
        prompt_loads evs = 1 /\ prompt_renders evs <= 1 /\
        client_requests evs <= prompt_renders evs /\
        agent_assignments evs
        = became_ready None (st_agent (snd (run_call c s)))
    end.
Proof.
  destruct s as [ag c0 l], c as [entry w context conv].
  unfold run_call. cbn [call_entry call_world call_context call_conversation
                        st_agent st_log].
  rewrite plan_turn_run, ensure_run.
  destruct ag as [a |].
  - cbn [st_agent st_conversation st_log]. rewrite generate_run. cbn zeta.
    destruct (build_messages _ _) as [messages | e0];
      [| close_call_effect].
    destruct (ainvoke w (llm a) _) as [response | e]; close_call_effect.
  - destruct (prompt_factory w) as [t | e]; [| close_call_effect].
    destruct (render_as_text w t) as [p | e]; [| close_call_effect].
    destruct (new_client w) as [k | e]; [| close_call_effect].
    cbn zeta. cbn [st_agent st_conversation st_log].
    rewrite generate_run. cbn zeta.
    destruct (build_messages _ _) as [messages | e0];
      [| close_call_effect].
    destruct (ainvoke w _ _) as [response | e]; close_call_effect.
Qed.

(** The effect of a sequence of calls on the responder and on the log. *)
Lemma run_calls_effect (cs : list Call) (s : Store) :
  exists evs,
    st_log (run_calls cs s) = st_log s ++ evs /\
    prompt_loads evs = uninitialized_calls cs s /\
    prompt_renders evs <= prompt_loads evs /\
    client_requests evs <= prompt_renders evs /\
    agent_assignments evs
    = became_ready (st_agent s) (st_agent (run_calls cs s)) /\
    (forall a, st_agent s = Some a ->
       st_agent (run_calls cs s) = Some a /\ prompt_loads evs = 0).
Proof.
  revert s. induction cs as [| c cs IH]; intros s.
  - exists []. cbn [run_calls uninitialized_calls].
    rewrite app_nil_r. repeat split; try reflexivity.
    + destruct (st_agent s); reflexivity.
    + assumption.
  - cbn [run_calls uninitialized_calls].
    destruct (run_call_effect c s) as (evs1 & Hlog1 & Hcall).
    destruct (IH (snd (run_call c s)))
      as (evs2 & Hlog2 & Hloads & Hrenders & Hclients & Hassign & Hkeep).
    exists (evs1 ++ evs2).
    split; [rewrite Hlog2, Hlog1, <- app_assoc; reflexivity |].
    unfold prompt_loads, prompt_renders, client_requests, agent_assignments
      in *.
    rewrite !count_app.
    destruct (st_agent s) as [a |].
    + destruct Hcall as (Ha & H1 & H2 & H3 & H4).
      destruct (Hkeep a Ha) as [Ha' Hzero].
      rewrite Ha in Hassign. rewrite Ha' in Hassign |- *.
      cbn [became_ready] in *.
      split; [lia |]. split; [lia |]. split; [lia |]. split; [lia |].
      intros b [= <-]. split; [reflexivity | lia].
    + destruct Hcall as (H1 & H2 & H3 & H4).
      split; [lia |]. split; [lia |]. split; [lia |].
      split; [| discriminate].
      destruct (st_agent (snd (run_call c s))) as [a1 |].
      * destruct (Hkeep a1 eq_refl) as [Ha' Hzero].
        rewrite Ha' in Hassign |- *. cbn [became_ready] in *. lia.
      * cbn [became_ready] in H4. rewrite H4, Hassign. reflexivity.
Qed.

Lemma run_calls_app (cs1 cs2 : list Call) (s : Store) :
  run_calls (cs1 ++ cs2) s = run_calls cs2 (run_calls cs1 s).
Proof.
  revert s. induction cs1 as [| c cs1 IH]; intros s; simpl;
    [reflexivity | apply IH].
Qed.

(** C4, as stated, fails: when rendering the prompt fails on the first
    call, the exception propagates and the responder stays uninitialized,
    so the second call, which is not the first to find the responder
    uninitialized, loads and renders the prompt template again. *)
Lemma prompt_loaded_again_after_failed_initialization :
  let s1 := run_calls [first_call render_down] fresh in
  let s2 := run_calls [first_call render_down; first_call answering] fresh in
  st_agent fresh = None /\ st_agent s1 = None /\
  fst (run_call (first_call render_down) fresh)
  = Raise (Failure "prompt too long") /\
  prompt_loads (st_log s1) = 1 /\ prompt_renders (st_log s1) = 1 /\
  prompt_loads (st_log s2) = 2 /\ prompt_renders (st_log s2) = 2 /\
  ~ prompt_loads (st_log s2) <= 1.
Proof.
  cbv zeta. repeat split; try reflexivity.
  vm_compute. lia.
Qed.

(** C4, amended.  Responder initialization completes at most once per
    planner instance.  Across any sequence of [begin_task] and
    [continue_task] calls on the same planner, the prompt template is
    loaded once on each call that finds the responder uninitialized (a
    call whose loading, rendering or client construction fails leaves it
    uninitialized, so a later call tries again) and on no other call, it
    is rendered at most as often as it is loaded, and the responder is
    assigned at most once.  Once a call has left the responder
    initialized, no later call loads or renders the prompt or requests a
    model client, and the responder, with its system instruction and its
    model client, is never replaced. *)
Theorem responder_initialization_completes_at_most_once
    (cs1 cs2 : list Call) (s : Store) :
  let s1 := run_calls cs1 s in
  let s2 := run_calls (cs1 ++ cs2) s in
  (exists evs,
     st_log s2 = st_log s ++ evs /\
     prompt_loads evs = uninitialized_calls (cs1 ++ cs2) s /\
     prompt_renders evs <= prompt_loads evs /\
     agent_assignments evs <= 1) /\
  (forall a,
     st_agent s1 = Some a ->
     st_agent s2 = Some a /\
     exists evs,
       st_log s2 = st_log s1 ++ evs /\
       prompt_loads evs = 0 /\ prompt_renders evs = 0 /\
       client_requests evs = 0 /\ agent_assignments evs = 0).
Proof.
  intros s1 s2. split.
  - destruct (run_calls_effect (cs1 ++ cs2) s)
      as (evs & Hlog & Hloads & Hrenders & _ & Hassign & _).
    exists evs. repeat split; try assumption.
    rewrite Hassign. unfold became_ready.
    destruct (st_agent s); [lia |].
    destruct (st_agent (run_calls (cs1 ++ cs2) s)); lia.
  - intros a Ha. subst s1 s2. rewrite run_calls_app.
    destruct (run_calls_effect cs2 (run_calls cs1 s))
      as (evs & Hlog & Hloads & Hrenders & Hclients & Hassign & Hkeep).
    destruct (Hkeep a Ha) as [Ha' Hzero].
    split; [exact Ha' |].
    exists evs. rewrite Ha, Ha' in Hassign. cbn [became_ready] in Hassign.
    repeat split; try assumption; lia.
Qed.

Lemma responder_initialization_completes_at_most_once_witness :
  st_agent (run_calls ([first_call answering] ++ [later_call model_down])
              fresh)
  = Some ready_agent.
Proof.
  refine (proj1 (proj2 (responder_initialization_completes_at_most_once
                          [first_call answering] [later_call model_down]
                          fresh) ready_agent _)).
  reflexivity.
Defined.

(** The scenario of the specification, end to end: empty history, the
    question about Norway, the model replying "Oslo.". *)
Example norway_scenario :
  run_call (first_call answering) fresh
  = (Ok (mkPlan [PredictedSayCommand (Message_ "assistant" (CStr "Oslo."))]),
     mkStore (Some ready_agent)
       (mkConversation false
          [Message_ "user" (CStr "Hello! What is the capital of Norway?");
           Message_ "assistant" (CStr "Oslo.")])
       [PromptLoaded; PromptRendered tools_template; ClientRequested;
        AgentAssigned ready_agent;
        Logged DEBUG "Initialized agent with system prompt: %s..."
          [AStr "You are a helpful assistant."];
        Logged DEBUG "begin_task - input => %s"
          [AStr "Hello! What is the capital of Norway?"];
        ChatCalled "Hello! What is the capital of Norway?" (Some []);
        ModelInvoked 1
          [SystemMessage (CStr "You are a helpful assistant.");
           HumanMessage (CStr "Hello! What is the capital of Norway?")];
        Logged DEBUG "agent response (with history) => %s"
          [AContent (CStr "Oslo.")];
        Logged DEBUG "conversation history length => %d" [ALen 0]]).
Proof. reflexivity. Qed.

End PlannerProps.

(** * Further properties of the code *)

(** ** Message bridge *)

Module BridgeMore.
Import Bridge Shapes BridgeProps.

(** X1.  [from_langchain] raises exactly on an external message that is
    none of the four recognized variants, with the [RuntimeError] whose
    text is "invalid message type " followed by the class; on a system,
    user, assistant or tool variant it returns a message. *)
Theorem from_langchain_raises_iff_variant_unrecognized (ext : BaseMessage) :
  (forall e, from_langchain ext = Raise e <->
     exists cls c, ext = OtherMessage cls c /\
                   e = RuntimeError ("invalid message type " ++ cls)) /\
  ((forall cls c, ext <> OtherMessage cls c) ->
   exists m, from_langchain ext = Ok m).
Proof.
  split.
  - intros e. split.
    + destruct ext; simpl; try discriminate.
      intros [= <-]. eauto.
    + intros (cls & c & -> & ->). reflexivity.
  - intros Hrecognized. destruct ext; simpl; eauto.
    exfalso. apply (Hrecognized cls c). reflexivity.
Qed.

Lemma from_langchain_raises_iff_variant_unrecognized_witness :
  from_langchain (OtherMessage "ChatMessage" (CStr "hi"))
  = Raise (RuntimeError "invalid message type ChatMessage") /\
  exists m, from_langchain (ToolMessage (CBlocks ["a"]) (Some "c1")) = Ok m.
Proof.
  split.
  - apply (proj1 (from_langchain_raises_iff_variant_unrecognized
                    (OtherMessage "ChatMessage" (CStr "hi")))).
    exists "ChatMessage", (CStr "hi"). split; reflexivity.
  - apply (proj2 (from_langchain_raises_iff_variant_unrecognized
                    (ToolMessage (CBlocks ["a"]) (Some "c1")))).
    intros cls c. discriminate.
Defined.

(** X2.  Every message that [from_langchain] returns is well formed: its
    role is one of the four recognized ones, its content is a string (the
    external content when that is a string, the empty string otherwise),
    and [tool_calls] and [tool_call_id] are set only on an assistant and
    on a tool message respectively. *)
Theorem from_langchain_returns_well_formed (ext : BaseMessage) (m : Message) :
  from_langchain ext = Ok m ->
  recognized_role (role m) /\
  content m = as_text (ext_content ext) /\
  is_str (content m) = true /\
  role_fields_only m.
Proof.
  unfold recognized_role, role_fields_only.
  destruct ext as [c | c | c calls | c cid | cls c]; simpl;
    try discriminate; intros [= <-]; simpl;
    destruct c; simpl; repeat split; auto; try congruence; tauto.
Qed.

Lemma from_langchain_returns_well_formed_witness :
  content (mkMessage "assistant" (CStr "") (Some []) None) = CStr "" /\
  recognized_role "assistant".
Proof.
  destruct (from_langchain_returns_well_formed
              (AIMessage (CBlocks ["a"; "b"]) (Some []))
              (mkMessage "assistant" (CStr "") (Some []) None) eq_refl)
    as (Hrole & Hcontent & _ & _).
  split; [exact Hcontent | exact Hrole].
Defined.

Lemma with_type_typed (l : list ToolCall) :
  Forall (fun tc => tc_type tc = Some "tool_call") (map with_type l).
Proof.
  induction l as [| tc l IH]; simpl; constructor;
    [reflexivity | exact IH].
Qed.

(** The shape of a message that comes out of the round trip. *)
Lemma round_trip_shape (m m' : Message) :
  round_trip m = Ok m' ->
  recognized_role (role m) /\
  role m' = role m /\
  content m' = as_text (content m) /\
  (role m = "assistant" ->
   exists l, tool_calls m = Some l /\ tool_calls m' = Some (map with_type l)) /\
  (role m = "tool" ->
   exists i, tool_call_id m = Some i /\ tool_call_id m' = Some i) /\
  role_fields_only m' /\
  role_fields_set m'.
Proof.
  unfold round_trip, role_fields_only, role_fields_set, recognized_role.
  destruct (to_langchain_cases m)
    as [[Hr ->] | [[Hr ->] | [[Hr Hcase] | [[Hr Hcase] | [Hr ->]]]]];
    try discriminate.
  - simpl. intros [= <-]. simpl. rewrite Hr.
    destruct (content m); simpl; repeat split; auto;
      intros; try discriminate; congruence.
  - simpl. intros [= <-]. simpl. rewrite Hr.
    destruct (content m); simpl; repeat split; auto;
      intros; try discriminate; congruence.
  - destruct Hcase as [(l & Hl & ->) | [_ ->]]; [| discriminate].
    simpl. intros [= <-]. simpl. rewrite Hr.
    assert (exists l0, Some (map with_type l) = Some l0 /\
                       Forall (fun tc => tc_type tc = Some "tool_call") l0)
      as Hset by (eexists; split; [reflexivity | apply with_type_typed]).
    destruct (content m); simpl; repeat split; eauto;
      intros; try discriminate; congruence.
  - destruct Hcase as [(i & Hi & ->) | [_ ->]]; [| discriminate].
    simpl. intros [= <-]. simpl. rewrite Hr.
    destruct (content m); simpl; repeat split; eauto;
      intros; try discriminate; congruence.
Qed.

(** X4.  What the round trip does to any message it accepts: the role is
    kept, the content is kept when it is a string and becomes the empty
    string otherwise; an assistant message had a list of tool calls and
    gets it back with each tool call marked with the type "tool_call"; a
    tool message had a [tool_call_id] and gets it back; every other
    optional field comes back as [None]. *)
Theorem round_trip_normal_form (m m' : Message) :
  round_trip m = Ok m' ->
  role m' = role m /\
  content m' = as_text (content m) /\
  (role m = "assistant" ->
   exists l, tool_calls m = Some l /\ tool_calls m' = Some (map with_type l)) /\
  (role m = "tool" ->
   exists i, tool_call_id m = Some i /\ tool_call_id m' = Some i) /\
  role_fields_only m'.
Proof.
  intros Hm.
  destruct (round_trip_shape m m' Hm) as (_ & H1 & H2 & H3 & H4 & H5 & _).
  auto.
Qed.

Lemma round_trip_normal_form_witness :
  role (Message_ "user" (CStr "")) = "user" /\
  content (Message_ "user" (CStr "")) = CStr "".
Proof.
  destruct (round_trip_normal_form
              (mkMessage "user" CNone (Some []) (Some "c1"))
              (Message_ "user" (CStr "")) eq_refl)
    as (Hrole & Hcontent & _).
  split; [exact Hrole | exact Hcontent].
Defined.

(** X5.  The round trip is a projection: a message that comes out of it
    goes through it unchanged. *)
Theorem round_trip_idempotent (m m' : Message) :
  round_trip m = Ok m' -> round_trip m' = Ok m'.
Proof.
  intros Hm.
  destruct (round_trip_shape m m' Hm)
    as (Hrecognized & Hrole & Hcontent & _ & _ & Hfields & Hset).
  rewrite <- Hrole in Hrecognized.
  destruct (content m) as [| s | parts]; simpl in Hcontent;
    eapply round_trip_fixes_well_formed; eauto.
Qed.

Lemma round_trip_idempotent_witness :
  round_trip (mkMessage "tool" (CStr "") None (Some "c1"))
  = Ok (mkMessage "tool" (CStr "") None (Some "c1")).
Proof.
  apply (round_trip_idempotent
           (mkMessage "tool" (CBlocks ["x"]) (Some []) (Some "c1"))).
  reflexivity.
Defined.

End BridgeMore.

(** ** Responder *)

Module AgentMore.
Import Bridge StateStore Effects Agent Planner AgentProps Shapes.

(** X6.  The responder never holds an empty system prompt: when its
    constructor returns, the stored prompt is the one it was given if
    that is not empty and the built-in default otherwise, and the model
    client is the one the world built; when building the client fails,
    the constructor raises that exception. *)
Theorem agent_system_prompt_never_empty (w : World) (prompt : string)
    (s : Store) :
  (forall a s', SimpleLangGraphAgent_init w prompt s = (Ok a, s') ->
     system_prompt a <> "" /\
     (prompt <> "" -> system_prompt a = prompt) /\
     (prompt = "" -> system_prompt a = default_system_prompt) /\
     new_client w = Ok (llm a)) /\
  (forall e, new_client w = Raise e ->
     fst (SimpleLangGraphAgent_init w prompt s) = Raise e).
Proof.
  unfold SimpleLangGraphAgent_init, bind, emit, lift, ret. simpl.
  split.
  - intros a s'. destruct (new_client w) as [k | e]; simpl;
      [| discriminate].
    intros [= <- <-]. simpl.
    destruct (String.eqb_spec prompt "") as [-> | Hne].
    + repeat split; try reflexivity; try discriminate. congruence.
    + repeat split; try assumption; try reflexivity. congruence.
  - intros e ->. reflexivity.
Qed.

Lemma agent_system_prompt_never_empty_witness :
  system_prompt (mkAgent default_system_prompt 1) <> "".
Proof.
  apply (proj1 (agent_system_prompt_never_empty Scenario.answering ""
                  Scenario.fresh)
           (mkAgent default_system_prompt 1)
           (mkStore None (mkConversation false []) [ClientRequested])).
  reflexivity.
Defined.

(** X7.  [chat] ends in one of three ways.  If a constructor rejects an
    entry while the message list is built, [chat] raises that exception
    and the model is not invoked.  Otherwise the model is invoked on the
    list [_chat_node] makes of the built one, and [chat] returns the
    content of its reply, whatever that content is, or raises the
    exception of the invocation unchanged.  In every case it touches
    neither the planner's responder nor the conversation state. *)
Theorem chat_returns_reply_content_or_raises (self : SimpleLangGraphAgent)
    (w : World) (message : string) (h : option (list Entry)) (s : Store) :
  (forall e,
     build_messages message h = Raise e ->
     fst (chat self w message h s) = Raise e /\
     model_calls (st_log (snd (chat self w message h s)))
     = model_calls (st_log s)) /\
  (forall messages response,
     build_messages message h = Ok messages ->
     ainvoke w (llm self) (node_messages self messages) = Ok response ->
     fst (chat self w message h s) = Ok (ext_content response)) /\
  (forall messages e,
     build_messages message h = Ok messages ->
     ainvoke w (llm self) (node_messages self messages) = Raise e ->
     fst (chat self w message h s) = Raise e) /\
  st_agent (snd (chat self w message h s)) = st_agent s /\
  st_conversation (snd (chat self w message h s)) = st_conversation s.
Proof.
  rewrite chat_run. split; [| split; [| split; [| split]]].
  - intros e Hbuilt. rewrite Hbuilt. unfold Raise. cbn [fst snd st_log].
    rewrite model_calls_app. simpl. rewrite app_nil_r. split; reflexivity.
  - intros messages response Hbuilt Hmodel. rewrite Hbuilt.
    cbv beta iota delta [Ok fst]. rewrite Hmodel. reflexivity.
  - intros messages e Hbuilt Hmodel. rewrite Hbuilt.
    cbv beta iota delta [Ok fst]. rewrite Hmodel. reflexivity.
  - destruct (build_messages message h); reflexivity.
  - destruct (build_messages message h); reflexivity.
Qed.

Lemma chat_returns_reply_content_or_raises_witness :
  fst (chat Scenario.ready_agent Scenario.answering "Hi" None Scenario.fresh)
  = Ok (CStr "Oslo.") /\
  fst (chat Scenario.ready_agent Scenario.model_down "Hi" None Scenario.fresh)
  = Raise (Failure "model call timed out") /\
  fst (chat Scenario.ready_agent Scenario.answering "Hi"
         (Some [entry_of (Message_ "user" CNone)]) Scenario.fresh)
  = Raise (ValidationError "HumanMessage").
Proof.
  split; [| split].
  - apply (proj1 (proj2 (chat_returns_reply_content_or_raises
                           Scenario.ready_agent Scenario.answering "Hi" None
                           Scenario.fresh))
             [HumanMessage (CStr "Hi")] Scenario.oslo);
      reflexivity.
  - apply (proj1 (proj2 (proj2 (chat_returns_reply_content_or_raises
                                  Scenario.ready_agent Scenario.model_down
                                  "Hi" None Scenario.fresh)))
             [HumanMessage (CStr "Hi")]);
      reflexivity.
  - apply (proj1 (chat_returns_reply_content_or_raises
                    Scenario.ready_agent Scenario.answering "Hi"
                    (Some [entry_of (Message_ "user" CNone)])
                    Scenario.fresh)).
    reflexivity.
Defined.

Lemma forwarded_at_most_one (e : Entry) : length (forwarded e) <= 1.
Proof.
  unfold forwarded.
  destruct (attr_role e) as [r |]; destruct (attr_content e) as [c |];
    simpl; try lia.
  destruct (r =? "user")%string; simpl; [lia |].
  destruct (r =? "assistant")%string; simpl; lia.
Qed.

Lemma forwarded_history_length (h : option (list Entry)) :
  length (forwarded_history h) <= length (default [] h).
Proof.
  unfold forwarded_history.
  induction (default [] h) as [| e l IH]; simpl; [lia |].
  rewrite length_app. pose proof (forwarded_at_most_one e). lia.
Qed.

(** X8.  The message list sent to the model always ends with the new user
    message, always holds at least two messages (the system instruction
    and the user message, or at least one forwarded entry and the user
    message), and never more than one per entry of the prior history plus
    the user message, or two. *)
Theorem sent_messages_end_with_new_user_message
    (self : SimpleLangGraphAgent) (message : string)
    (h : option (list Entry)) :
  last (sent_to_model self message h) = Some (HumanMessage (CStr message)) /\
  2 <= length (sent_to_model self message h) /\
  length (sent_to_model self message h)
  <= Nat.max 2 (length (default [] h) + 1).
Proof.
  pose proof (forwarded_history_length h) as Hlen.
  rewrite sent_to_model_cases.
  destruct (forwarded_history h) as [| m kept].
  - simpl. repeat split; lia.
  - rewrite last_snoc, length_app. simpl in *. repeat split; lia.
Qed.

(** X9.  Forwarding follows the order of the prior history and composes
    over concatenation: the message list built from two histories in a
    row is what the first forwards followed by the list built from the
    second; an absent history is handled like an empty one. *)
Theorem chat_messages_compose (message : string) (h1 h2 : list Entry) :
  chat_messages message (Some (h1 ++ h2))
  = forwarded_history (Some h1) ++ chat_messages message (Some h2) /\
  chat_messages message None = chat_messages message (Some []) /\
  chat_messages message (Some []) = [HumanMessage (CStr message)].
Proof.
  rewrite !chat_messages_forwarded. unfold forwarded_history. simpl.
  rewrite flat_map_app, <- app_assoc. repeat split.
Qed.



End AgentMore.

(** ** Turn planner *)

Module PlannerMore.
Import Bridge StateStore Effects Agent Planner AgentProps PlannerProps.
Import AgentMore Shapes.

(** How initialization can raise: only on an uninitialized planner, with
    the exception of the prompt factory, of the renderer or of the client
    construction, and leaving the planner uninitialized. *)
Lemma ensure_raises_inv (w : World) (context : TurnContext) (s s1 : Store)
    (e : Exception) :
  _ensure_agent_initialized w context s = (Raise e, s1) ->
  st_agent s = None /\ st_agent s1 = None /\
  (prompt_factory w = Raise e \/
   (exists t, prompt_factory w = Ok t /\ render_as_text w t = Raise e) \/
   (exists t p, prompt_factory w = Ok t /\ render_as_text w t = Ok p /\
                new_client w = Raise e)).
Proof.
  destruct s as [ag c l]. rewrite ensure_run.
  destruct ag as [a |]; [discriminate |].
  destruct (prompt_factory w) as [t | e1].
  - destruct (render_as_text w t) as [p | e2] eqn:Hrender.
    + destruct (new_client w) as [k | e3]; [discriminate |].
      intros [= <- <-]. simpl. eauto 10.
    + intros [= <- <-]. simpl. eauto 10.
  - intros [= <- <-]. simpl. auto.
Qed.

(** The three ways a turn can end. *)
Lemma plan_turn_cases (entry : EntryPoint) (w : World)
    (context : TurnContext) (s : Store) :
  let user_message := Message_ "user" (CStr (activity_text context)) in
  let out := plan_turn entry w context s in
  (exists e, fst (_ensure_agent_initialized w context s) = Raise e /\
             out = (Raise e, snd (_ensure_agent_initialized w context s))) \/
  (exists a reply,
     fst (_ensure_agent_initialized w context s) = Ok tt /\
     st_agent (snd out) = Some a /\
     fst out
     = Ok (mkPlan [PredictedSayCommand (Message_ "assistant" reply)]) /\
     st_conversation (snd out)
     = mkConversation (lights_on (st_conversation s))
         (history (st_conversation s)
          ++ [user_message; Message_ "assistant" reply])) \/
  (exists a,
     fst (_ensure_agent_initialized w context s) = Ok tt /\
     st_agent (snd out) = Some a /\
     fst out
     = Ok (mkPlan [PredictedSayCommand
                     (Message_ "assistant" (CStr apology))]) /\
     st_conversation (snd out)
     = mkConversation (lights_on (st_conversation s))
         (history (st_conversation s) ++ [user_message])).
Proof.
  intros user_message out. subst out.
  destruct (_ensure_agent_initialized w context s) as [[[] | e] s1] eqn:Hinit.
  - right.
    destruct (plan_turn_initialized entry _ _ _ _ Hinit)
      as (a & evs & _ & _ & _ & _ & Hrun).
    rewrite Hrun, generate_run. cbn zeta.
    destruct (build_messages _ _) as [messages | e0];
      [destruct (ainvoke w (llm a) _) as [response | e] |].
    + left. exists a, (ext_content response).
      cbn [fst snd st_agent st_conversation history lights_on].
      rewrite <- app_assoc. repeat split.
    + right. exists a.
      cbn [fst snd st_agent st_conversation history lights_on].
      repeat split.
    + right. exists a.
      cbn [fst snd st_agent st_conversation history lights_on].
      repeat split.
  - left. exists e. rewrite plan_turn_run, Hinit. split; reflexivity.
Qed.

(** X10.  Error containment: a turn raises exactly when initialization
    raises, and then with the same exception; a failure of the model call
    never propagates.  In particular a turn on an initialized planner
    always returns a Plan. *)
Theorem turn_raises_iff_initialization_raises (entry : EntryPoint)
    (w : World) (context : TurnContext) (s : Store) :
  (forall e,
     fst (plan_turn entry w context s) = Raise e <->
     fst (_ensure_agent_initialized w context s) = Raise e) /\
  (forall a, st_agent s = Some a ->
     exists plan, fst (plan_turn entry w context s) = Ok plan).
Proof.
  split.
  - intros e.
    destruct (plan_turn_cases entry w context s)
      as [(e' & Hinit & Hout) | [(a & reply & Hinit & _ & Hout & _)
                                | (a & Hinit & _ & Hout & _)]];
      rewrite ?Hout, Hinit; simpl; split; intros H; try discriminate H;
      injection H as ->; reflexivity.
  - intros a Ha. rewrite plan_turn_run.
    destruct s as [ag c l]. simpl in Ha. subst ag. rewrite ensure_run.
    cbn [st_agent st_conversation st_log]. rewrite generate_run. cbn zeta.
    destruct (build_messages _ _); [| eauto].
    destruct (ainvoke w (llm a) _); eauto.
Qed.

Lemma turn_raises_iff_initialization_raises_witness :
  fst (plan_turn BeginTask Scenario.render_down Scenario.question
         Scenario.fresh)
  = Raise (Failure "prompt too long") /\
  exists plan,
    fst (plan_turn ContinueTask Scenario.model_down Scenario.question
           (mkStore (Some Scenario.ready_agent) (mkConversation true []) []))
    = Ok plan.
Proof.
  split.
  - apply (proj1 (turn_raises_iff_initialization_raises BeginTask
                    Scenario.render_down Scenario.question Scenario.fresh)).
    reflexivity.
  - apply (proj2 (turn_raises_iff_initialization_raises ContinueTask
                    Scenario.model_down Scenario.question
                    (mkStore (Some Scenario.ready_agent)
                       (mkConversation true []) []))
             Scenario.ready_agent).
    reflexivity.
Defined.

(** X11.  Every Plan a turn returns holds exactly one command, a say
    command whose message has the role "assistant", no tool calls and
    no tool call id. *)
Theorem returned_plan_is_one_assistant_say (entry : EntryPoint) (w : World)
    (context : TurnContext) (s : Store) (plan : Plan) :
  fst (plan_turn entry w context s) = Ok plan ->
  exists c,
    commands plan = [PredictedSayCommand (mkMessage "assistant" c None None)].
Proof.
  intros Hplan.
  destruct (plan_turn_cases entry w context s)
    as [(e & _ & Hout) | [(a & reply & _ & _ & Hout & _)
                         | (a & _ & _ & Hout & _)]];
    rewrite Hout in Hplan; try discriminate Hplan;
    injection Hplan as <-; eexists; reflexivity.
Qed.

Lemma returned_plan_is_one_assistant_say_witness :
  exists c,
    commands (mkPlan [PredictedSayCommand
                        (Message_ "assistant" (CStr "Oslo."))])
    = [PredictedSayCommand (mkMessage "assistant" c None None)].
Proof.
  apply (returned_plan_is_one_assistant_say BeginTask Scenario.answering
           Scenario.question Scenario.fresh).
  reflexivity.
Defined.

(** X12.  The history is append-only during a turn and the turn touches
    nothing else of the conversation state: afterwards the history is the
    history before followed by nothing (the turn raised), by the user
    message (generation failed), or by the user message and one assistant
    message (generation succeeded), and [lights_on] is unchanged. *)
Theorem turn_only_appends_to_history (entry : EntryPoint) (w : World)
    (context : TurnContext) (s : Store) :
  let user_message := Message_ "user" (CStr (activity_text context)) in
  let after := st_conversation (snd (plan_turn entry w context s)) in
  lights_on after = lights_on (st_conversation s) /\
  exists suffix,
    history after = history (st_conversation s) ++ suffix /\
    Forall Shapes.spoken suffix /\
    ((suffix = [] /\ exists e, fst (plan_turn entry w context s) = Raise e) \/
     (suffix = [user_message] /\
      fst (plan_turn entry w context s)
      = Ok (mkPlan [PredictedSayCommand
                      (Message_ "assistant" (CStr apology))])) \/
     (exists reply,
        suffix = [user_message; Message_ "assistant" reply] /\
        fst (plan_turn entry w context s)
        = Ok (mkPlan [PredictedSayCommand (Message_ "assistant" reply)]))).
Proof.
  intros user_message after. subst after.
  destruct (plan_turn_cases entry w context s)
    as [(e & Hinit & Hout) | [(a & reply & _ & _ & Hout & Hconv)
                             | (a & _ & _ & Hout & Hconv)]].
  - rewrite Hout. cbn [fst snd].
    destruct (_ensure_agent_initialized w context s) as [r s1] eqn:Hrun.
    simpl in Hinit. subst r.
    destruct (ensure_inv _ _ _ _ _ Hrun) as (Hconv & _).
    cbn [snd]. rewrite Hconv. split; [reflexivity |].
    exists []. rewrite app_nil_r. split; [reflexivity |].
    split; [constructor |]. left. eauto.
  - rewrite Hconv, Hout. cbn [lights_on history]. split; [reflexivity |].
    exists [user_message; Message_ "assistant" reply].
    split; [reflexivity |]. split.
    + constructor; [left; reflexivity |].
      constructor; [right; reflexivity | constructor].
    + right. right. eauto.
  - rewrite Hconv, Hout. cbn [lights_on history]. split; [reflexivity |].
    exists [user_message]. split; [reflexivity |]. split.
    + constructor; [left; reflexivity | constructor].
    + right. left. auto.
Qed.

(** X13.  A turn that raises has met an uninitialized planner and leaves
    it uninitialized: the exception is the one of loading the prompt, of
    rendering it or of building the model client, the conversation state
    is untouched, and neither [chat] nor the model has been called. *)
Theorem failed_turn_leaves_planner_uninitialized (entry : EntryPoint)
    (w : World) (context : TurnContext) (s : Store) (e : Exception) :
  fst (plan_turn entry w context s) = Raise e ->
  let after := snd (plan_turn entry w context s) in
  st_agent s = None /\ st_agent after = None /\
  st_conversation after = st_conversation s /\
  chat_calls (st_log after) = chat_calls (st_log s) /\
  model_calls (st_log after) = model_calls (st_log s) /\
  (prompt_factory w = Raise e \/
   (exists t, prompt_factory w = Ok t /\ render_as_text w t = Raise e) \/
   (exists t p, prompt_factory w = Ok t /\ render_as_text w t = Ok p /\
                new_client w = Raise e)).
Proof.
  intros Hraise after. subst after.
  destruct (plan_turn_cases entry w context s)
    as [(e' & Hinit & Hout) | [(a & reply & _ & _ & Hout & _)
                              | (a & _ & _ & Hout & _)]];
    rewrite Hout in Hraise; try discriminate Hraise.
  injection Hraise as ->. rewrite Hout. cbn [snd].
  destruct (_ensure_agent_initialized w context s) as [r s1] eqn:Hrun.
  simpl in Hinit. subst r. cbn [snd].
  destruct (ensure_raises_inv _ _ _ _ _ Hrun) as (Hnone & Hnone1 & Hsource).
  destruct (ensure_inv _ _ _ _ _ Hrun)
    as (Hconv & _ & evs & Hlog & Hchat & Hmodel).
  rewrite Hlog, chat_calls_app, model_calls_app, Hchat, Hmodel, !app_nil_r.
  auto 10.
Qed.

Lemma failed_turn_leaves_planner_uninitialized_witness :
  st_agent (snd (plan_turn BeginTask Scenario.render_down Scenario.question
                   Scenario.fresh)) = None.
Proof.
  refine (proj1 (proj2 (failed_turn_leaves_planner_uninitialized BeginTask
                          Scenario.render_down Scenario.question
                          Scenario.fresh (Failure "prompt too long") _))).
  reflexivity.
Defined.




(** X15.  After a turn the planner is initialized exactly when the turn
    returned a Plan: a returned Plan means the responder is in place for
    the next turn, a raised exception means it is still missing. *)
Theorem planner_initialized_iff_turn_returned (entry : EntryPoint)
    (w : World) (context : TurnContext) (s : Store) :
  let out := plan_turn entry w context s in
  (exists plan, fst out = Ok plan) <-> (exists a, st_agent (snd out) = Some a).
Proof.
  intros out. subst out.
  destruct (plan_turn_cases entry w context s)
    as [(e & Hinit & Hout) | [(a & reply & _ & Ha & Hout & _)
                             | (a & _ & Ha & Hout & _)]].
  - rewrite Hout. cbn [fst snd].
    destruct (_ensure_agent_initialized w context s) as [r s1] eqn:Hrun.
    simpl in Hinit. subst r. cbn [snd].
    destruct (ensure_raises_inv _ _ _ _ _ Hrun) as (_ & Hnone & _).
    rewrite Hnone. split; intros [x Hx]; discriminate Hx.
  - rewrite Ha, Hout. split; eauto.
  - rewrite Ha, Hout. split; eauto.
Qed.

End PlannerMore.

(** ** Configuration and start-up *)

Module SettingsProps.
Import Bridge Settings.

Lemma getenv_with_fallback (environ : gmap string string) (key v : string) :
  getenv environ key (Some v) = Some (default v (environ !! key)).
Proof. unfold getenv. destruct (environ !! key); reflexivity. Qed.

(** X16.  The four Azure settings are never [None]: each is the value of
    its environment variable, or the empty string when the variable is
    not set; the bot id and password are [None] when theirs are not set.
    Hence the start-up check of the API key never raises, not even when
    the key is missing from the environment. *)
Theorem api_key_check_never_raises (environ : gmap string string) :
  let config := Config_ environ in
  check_api_key config = Ok tt /\
  AZURE_OPENAI_API_KEY config
  = Some (default "" (environ !! "AZURE_OPENAI_API_KEY")) /\
  AZURE_OPENAI_ENDPOINT config
  = Some (default "" (environ !! "AZURE_OPENAI_ENDPOINT")) /\
  AZURE_OPENAI_API_VERSION config
  = Some (default "" (environ !! "AZURE_OPENAI_API_VERSION")) /\
  AZURE_OPENAI_CHAT_DEPLOYMENT_NAME config
  = Some (default "" (environ !! "AZURE_OPENAI_CHAT_DEPLOYMENT_NAME")) /\
  APP_ID config = environ !! "BOT_ID" /\
  APP_PASSWORD config = environ !! "BOT_PASSWORD".
Proof.
  cbn zeta. unfold check_api_key. cbn [Config_ AZURE_OPENAI_API_KEY
    AZURE_OPENAI_ENDPOINT AZURE_OPENAI_API_VERSION
    AZURE_OPENAI_CHAT_DEPLOYMENT_NAME APP_ID APP_PASSWORD].
  rewrite !getenv_with_fallback. repeat split.
  - unfold getenv. destruct (environ !! "BOT_ID"); reflexivity.
  - unfold getenv. destruct (environ !! "BOT_PASSWORD"); reflexivity.
Qed.

Lemma export_azure_run (environ : gmap string string) :
  export_azure (Config_ environ) environ
  = Ok (<["AZURE_OPENAI_API_VERSION" :=
            default "" (environ !! "AZURE_OPENAI_API_VERSION")]>
          (<["AZURE_OPENAI_ENDPOINT" :=
               default "" (environ !! "AZURE_OPENAI_ENDPOINT")]>
             (<["AZURE_OPENAI_API_KEY" :=
                  default "" (environ !! "AZURE_OPENAI_API_KEY")]>
                environ))).
Proof.
  unfold export_azure. cbn [Config_ AZURE_OPENAI_API_KEY
    AZURE_OPENAI_ENDPOINT AZURE_OPENAI_API_VERSION].
  rewrite !getenv_with_fallback. reflexivity.
Qed.

(** X17.  Start-up never fails on the environment, whatever it holds.
    Afterwards each of the three exported variables is set, to the value
    it had or to the empty string if it had none, every other variable is
    as before, the configuration read from the new environment is the
    same, and starting up again changes nothing. *)
Theorem start_up_defines_azure_variables (environ : gmap string string) :
  exists environ',
    start_up environ = Ok environ' /\
    (forall key,
       key = "AZURE_OPENAI_API_KEY" \/ key = "AZURE_OPENAI_ENDPOINT" \/
       key = "AZURE_OPENAI_API_VERSION" ->
       environ' !! key = Some (default "" (environ !! key))) /\
    (forall key,
       key <> "AZURE_OPENAI_API_KEY" -> key <> "AZURE_OPENAI_ENDPOINT" ->
       key <> "AZURE_OPENAI_API_VERSION" ->
       environ' !! key = environ !! key) /\
    Config_ environ' = Config_ environ /\
    start_up environ' = Ok environ'.
Proof.
  eexists. unfold start_up.
  assert (forall env, check_api_key (Config_ env) = Ok tt) as Hcheck.
  { intros env. unfold check_api_key. cbn [Config_ AZURE_OPENAI_API_KEY].
    rewrite getenv_with_fallback. reflexivity. }
  rewrite Hcheck, export_azure_run.
  split; [reflexivity |].
  set (environ' := <["AZURE_OPENAI_API_VERSION" := _]> _).
  assert (forall key,
            key = "AZURE_OPENAI_API_KEY" \/ key = "AZURE_OPENAI_ENDPOINT" \/
            key = "AZURE_OPENAI_API_VERSION" ->
            environ' !! key = Some (default "" (environ !! key))) as Hset.
  { intros key [-> | [-> | ->]]; subst environ'.
    - rewrite !lookup_insert_ne by discriminate. apply lookup_insert_eq.
    - rewrite lookup_insert_ne by discriminate. apply lookup_insert_eq.
    - apply lookup_insert_eq. }
  assert (forall key,
            key <> "AZURE_OPENAI_API_KEY" -> key <> "AZURE_OPENAI_ENDPOINT" ->
            key <> "AZURE_OPENAI_API_VERSION" ->
            environ' !! key = environ !! key) as Hkeep.
  { intros key H1 H2 H3. subst environ'.
    rewrite !lookup_insert_ne by congruence. reflexivity. }
  split; [exact Hset |]. split; [exact Hkeep |].
  assert (Config_ environ' = Config_ environ) as Hconfig.
  { unfold Config_, getenv.
    rewrite (Hset "AZURE_OPENAI_API_KEY"), (Hset "AZURE_OPENAI_ENDPOINT"),
      (Hset "AZURE_OPENAI_API_VERSION") by auto.
    rewrite (Hkeep "BOT_ID"), (Hkeep "BOT_PASSWORD"),
      (Hkeep "AZURE_OPENAI_CHAT_DEPLOYMENT_NAME") by discriminate.
    destruct (environ !! "AZURE_OPENAI_API_VERSION"),
             (environ !! "AZURE_OPENAI_API_KEY"),
             (environ !! "AZURE_OPENAI_ENDPOINT"); reflexivity. }
  split; [exact Hconfig |].
  rewrite Hcheck, export_azure_run. f_equal.
  apply map_eq. intros key.
  destruct (decide (key = "AZURE_OPENAI_API_VERSION")) as [-> | H3].
  { rewrite lookup_insert_eq, Hset by auto. reflexivity. }
  rewrite lookup_insert_ne by congruence.
  destruct (decide (key = "AZURE_OPENAI_ENDPOINT")) as [-> | H2].
  { rewrite lookup_insert_eq, Hset by auto. reflexivity. }
  rewrite lookup_insert_ne by congruence.
  destruct (decide (key = "AZURE_OPENAI_API_KEY")) as [-> | H1].
  { rewrite lookup_insert_eq, Hset by auto. reflexivity. }
  rewrite lookup_insert_ne by congruence. reflexivity.
Qed.

Lemma start_up_defines_azure_variables_witness :
  exists environ',
    start_up {[ "BOT_ID" := "b-1" ]} = Ok environ' /\
    environ' !! "AZURE_OPENAI_API_KEY" = Some "" /\
    environ' !! "BOT_ID" = Some "b-1".
Proof.
  destruct (start_up_defines_azure_variables {[ "BOT_ID" := "b-1" ]})
    as (environ' & Hrun & Hset & Hkeep & _).
  exists environ'. split; [exact Hrun |]. split.
  - rewrite (Hset "AZURE_OPENAI_API_KEY") by auto. reflexivity.
  - rewrite (Hkeep "BOT_ID") by discriminate. reflexivity.
Defined.

End SettingsProps.

(** ** Action handler *)

Module BotProps.
Import Bridge Bot.

(** X18.  [on_say] hands at most one activity to [send_activity]: the
    response content, exactly when the context has a [data] with a
    [response] with a [content]; when any of these is missing it sends
    nothing and still returns.  It returns the empty string whenever it
    returns, and raises only an exception of [send_activity]. *)
Theorem on_say_sends_response_content (send : Content -> result unit)
    (context : ActionTurnContext) :
  let outcome := fst (on_say send context) in
  let sent := snd (on_say send context) in
  (forall c,
     sent = [c] <->
     exists data response,
       context_data context = Some data /\
       data_response data = Some response /\
       response_content response = Some c) /\
  (sent = [] \/ exists c, sent = [c]) /\
  (forall v, outcome = Ok v -> v = "") /\
  (forall e, outcome = Raise e -> exists c, sent = [c] /\ send c = Raise e) /\
  (sent = [] -> outcome = Ok "").
Proof.
  cbn zeta. unfold on_say.
  destruct context as [[[[[[c0 |]] |]] |]]; simpl.
  - assert (forall c,
              [c0] = [c] <->
              exists data response,
                Some (mkActionData (Some (mkSayResponse (Some c0))))
                = Some data /\
                data_response data = Some response /\
                response_content response = Some c) as Hiff.
    { intros c. split.
      - intros [= <-]. eauto.
      - intros (data & response & [= <-] & [= <-] & [= <-]). reflexivity. }
    destruct (send c0) as [[] | e0] eqn:Hsend; simpl;
      (split; [exact Hiff |]); (split; [eauto |]); split.
    + intros v [= <-]. reflexivity.
    + split; [discriminate | discriminate].
    + discriminate.
    + split; [| discriminate]. intros e [= <-]. eauto.
  - split; [| split; [auto | split; [| split; [discriminate | reflexivity]]]].
    + intros c. split; [discriminate |].
      intros (data & response & [= <-] & [= <-] & Hc). discriminate Hc.
    + intros v [= <-]. reflexivity.
  - split; [| split; [auto | split; [| split; [discriminate | reflexivity]]]].
    + intros c. split; [discriminate |].
      intros (data & response & [= <-] & Hr & _). discriminate Hr.
    + intros v [= <-]. reflexivity.
  - split; [| split; [auto | split; [| split; [discriminate | reflexivity]]]].
    + intros c. split; [discriminate |].
      intros (data & response & Hd & _). discriminate Hd.
    + intros v [= <-]. reflexivity.
Qed.

Lemma on_say_sends_response_content_witness :
  snd (on_say (fun _ => Ok tt)
         (mkActionContext
            (Some (mkActionData (Some (mkSayResponse (Some (CStr "Oslo."))))))))
  = [CStr "Oslo."] /\
  fst (on_say (fun _ => Ok tt) (mkActionContext (Some (mkActionData None))))
  = Ok "".
Proof.
  split.
  - apply (proj1 (on_say_sends_response_content (fun _ => Ok tt)
                    (mkActionContext
                       (Some (mkActionData
                                (Some (mkSayResponse (Some (CStr "Oslo."))))))))).
    eauto.
  - apply (proj2 (proj2 (proj2 (proj2
             (on_say_sends_response_content (fun _ => Ok tt)
                (mkActionContext (Some (mkActionData None)))))))).
    reflexivity.
Defined.

End BotProps.
